(** * Payment workflows: a shallow embedding of the tool plugin, the workflow
    executors and the workflow runner, with the properties of their
    specification.

    Python [float] is IEEE 754 binary64, embedded as Rocq's primitive [float]
    (the same format); [dict]s used as lookup tables are [gmap]s, and [dict]s
    whose order is visible to a serializer are association lists. *)

From Stdlib Require Import ZArith NArith Lia Floats String Ascii List.
From stdpp Require Import base option list gmap strings pretty.

Local Open Scope string_scope.
Local Open Scope list_scope.

(* Decimal literals denote the nearest binary64 value, as in Python. *)
Set Warnings "-inexact-float,-register-all".

(** ** Characters and strings *)

Definition LF : string := String (ascii_of_nat 10) EmptyString.
Definition ESC : string := String (ascii_of_nat 27) EmptyString.

(** [str.upper()] on ASCII text (the only text the modelled code upper-cases
    that a property depends on is hexadecimal). *)
Definition upper_ascii (c : ascii) : ascii :=
  let n := nat_of_ascii c in
  if (97 <=? n)%nat && (n <=? 122)%nat then ascii_of_nat (n - 32) else c.

Definition upper (s : string) : string :=
  string_of_list_ascii (map upper_ascii (list_ascii_of_string s)).

(** [s[:n]] *)
Definition prefix (n : nat) (s : string) : string :=
  string_of_list_ascii (firstn n (list_ascii_of_string s)).

Definition hex_char (d : N) : ascii :=
  match d with
  | 0 => "0" | 1 => "1" | 2 => "2" | 3 => "3" | 4 => "4" | 5 => "5"
  | 6 => "6" | 7 => "7" | 8 => "8" | 9 => "9" | 10 => "a" | 11 => "b"
  | 12 => "c" | 13 => "d" | 14 => "e" | _ => "f"
  end%N%char.

(** ['%0kx' % n]: the [k] low hexadecimal digits of [n], most significant
    first. *)
Fixpoint hex_digits (k : nat) (n : N) : list ascii :=
  match k with
  | O => []
  | S k' => hex_digits k' (n / 16)%N ++ [hex_char (n mod 16)%N]
  end.

(** [uuid.UUID.hex] of the UUID whose 128-bit integer is [u]. *)
Definition uuid_hex (u : N) : string := string_of_list_ascii (hex_digits 32 u).

Definition is_upper_hex (c : ascii) : bool :=
  let n := nat_of_ascii c in
  ((48 <=? n)%nat && (n <=? 57)%nat) || ((65 <=? n)%nat && (n <=? 70)%nat).

Definition is_lower_hex (c : ascii) : bool :=
  let n := nat_of_ascii c in
  ((48 <=? n)%nat && (n <=? 57)%nat) || ((97 <=? n)%nat && (n <=? 102)%nat).

(** ** Python values that cross the tool boundary *)

(** Field and argument values. The tools' JSON schemas declare only strings
    and numbers; a number is taken as a [float], the type the plugin
    annotates. *)
Inductive scalar :=
| SStr (s : string)
| SFloat (x : float).

(** A plain [dict] in insertion order. *)
Definition pydict := list (string * scalar).

Inductive pyobj :=
| PyModel (cls : string) (fields : pydict)   (* an instance of a BaseModel class *)
| PyDict (d : pydict)
| PyList (items : list pyobj)
| PyScalar (v : scalar)
| PyNone.

Inductive exn :=
| ValueError (msg : string)
| KeyError (key : string)
| TypeError (msg : string)
| AttributeError (msg : string)
| IndexError (msg : string)
| JSONDecodeError
| SchemaViolation (param : string).

(** What the Python runtime and its libraries compute and this repository
    does not define. A timestamp is a naive [datetime], counted in
    microseconds. *)
Class PyRuntime := {
  isoformat : Z -> string;                 (* datetime.isoformat() *)
  strftime_seconds : Z -> string;          (* strftime('%Y-%m-%d %H:%M:%S') *)
  format_2f : float -> string;             (* f"{x:.2f}" *)
  float_str : float -> string;             (* f"{x}" *)
  str_strip : string -> string;            (* str.strip() *)
  json_loads : string -> option pyobj;     (* None: JSONDecodeError *)
  json_dumps : pyobj -> option string;     (* None: TypeError, not serializable *)
}.

Definition timedelta_days (d : Z) : Z := (d * 86400 * 1000000)%Z.

(** ** plugins/implementations.py *)

Module ServiceInfo.
Record t := mk { id : string; name : string; category : string }.
End ServiceInfo.

Module AccountInfo.
Record t := mk { id : string; balance : float; currency : string }.
End AccountInfo.

Module BalanceInfo.
Record t := mk { balance : float; currency : string; error_message : string }.
End BalanceInfo.

Module PaymentResult.
Record t := mk { receipt_id : string; receipt_details : string; error_message : string }.
End PaymentResult.

Module ReceiptInfo.
Record t := mk {
  receipt_id : string; account_id : string; service_id : string;
  service_name : string; amount : float; currency : string; timestamp : string }.
End ReceiptInfo.

Module BillInfo.
Record t := mk {
  bill_id : string; customer_id : string; service_id : string;
  service_name : string; amount : float; currency : string; due_date : string;
  period : string; status : string; error_message : string }.
End BillInfo.

Record PaymentPlugin := {
  _customer_favorites : gmap string (list string);
  _services : gmap string ServiceInfo.t;
  _accounts : gmap string AccountInfo.t;
  _latest_bills : gmap string BillInfo.t;
  _receipts : gmap string ReceiptInfo.t;
}.

(** The process around the plugin: the module-level [payment_plugin], what
    has been written to standard output, and the host's sources of
    [uuid.uuid4()] and [datetime.utcnow()], read in order. *)
Record World := {
  payment_plugin : PaymentPlugin;
  stdout : list string;
  uuid4_source : nat -> N;
  utcnow_source : nat -> Z;
  uuid4_reads : nat;
  utcnow_reads : nat;
}.

Definition set_plugin (p : PaymentPlugin) (w : World) : World :=
  {| payment_plugin := p; stdout := stdout w;
     uuid4_source := uuid4_source w; utcnow_source := utcnow_source w;
     uuid4_reads := uuid4_reads w; utcnow_reads := utcnow_reads w |}.

(** [sys.stdout.write(s)] *)
Definition write (s : string) (w : World) : World :=
  {| payment_plugin := payment_plugin w; stdout := stdout w ++ [s];
     uuid4_source := uuid4_source w; utcnow_source := utcnow_source w;
     uuid4_reads := uuid4_reads w; utcnow_reads := utcnow_reads w |}.

Definition uuid4 (w : World) : N * World :=
  (uuid4_source w (uuid4_reads w),
   {| payment_plugin := payment_plugin w; stdout := stdout w;
      uuid4_source := uuid4_source w; utcnow_source := utcnow_source w;
      uuid4_reads := S (uuid4_reads w); utcnow_reads := utcnow_reads w |}).

Definition utcnow (w : World) : Z * World :=
  (utcnow_source w (utcnow_reads w),
   {| payment_plugin := payment_plugin w; stdout := stdout w;
      uuid4_source := uuid4_source w; utcnow_source := utcnow_source w;
      uuid4_reads := uuid4_reads w; utcnow_reads := S (utcnow_reads w) |}).

Section Plugin.
Context `{PyRuntime}.

(** [PaymentPlugin.__init__], at the clock reading [now]. *)
Definition PaymentPlugin_init (now : Z) : PaymentPlugin :=
  let due (d : Z) := isoformat (now + timedelta_days d)%Z in
  {| _customer_favorites :=
       <["cust-1" := ["SVC001"; "SVC002"; "SVC004"]]>
       (<["cust-2" := ["SVC003"; "SVC005"]]>
       (<["cust-3" := ["SVC001"; "SVC003"; "SVC004"; "SVC005"]]> ∅));
     _services :=
       <["SVC001" := ServiceInfo.mk "SVC001" "Luz del Sur" "Electricidad"]>
       (<["SVC002" := ServiceInfo.mk "SVC002" "Sedapal" "Agua"]>
       (<["SVC003" := ServiceInfo.mk "SVC003" "Claro Móvil" "Telefonía"]>
       (<["SVC004" := ServiceInfo.mk "SVC004" "Netflix" "Streaming"]>
       (<["SVC005" := ServiceInfo.mk "SVC005" "Movistar Hogar" "Internet"]> ∅))));
     _accounts :=
       <["acct-123" := AccountInfo.mk "acct-123" 20.50 "S/."]>
       (<["acct-124" := AccountInfo.mk "acct-124" 250.00 "S/."]> ∅);
     _latest_bills :=
       <["cust-1:SVC001" := BillInfo.mk "BILL-001" "cust-1" "SVC001" "Luz del Sur"
           85.50 "S/." (due 15%Z) "Noviembre 2025" "Pendiente" ""]>
       (<["cust-1:SVC002" := BillInfo.mk "BILL-002" "cust-1" "SVC002" "Sedapal"
           42.30 "S/." (due 10%Z) "Noviembre 2025" "Pendiente" ""]>
       (<["cust-1:SVC004" := BillInfo.mk "BILL-003" "cust-1" "SVC004" "Netflix"
           44.90 "S/." (due 5%Z) "Diciembre 2025" "Pendiente" ""]>
       (<["cust-2:SVC003" := BillInfo.mk "BILL-004" "cust-2" "SVC003" "Claro Móvil"
           59.90 "S/." (due 8%Z) "Diciembre 2025" "Pendiente" ""]>
       (<["cust-2:SVC005" := BillInfo.mk "BILL-005" "cust-2" "SVC005" "Movistar Hogar"
           120.00 "S/." (due 20%Z) "Diciembre 2025" "Pendiente" ""]>
       (<["cust-3:SVC001" := BillInfo.mk "BILL-006" "cust-3" "SVC001" "Luz del Sur"
           150.75 "S/." (due (-2)%Z) "Noviembre 2025" "Vencido" ""]>
       (<["cust-3:SVC003" := BillInfo.mk "BILL-007" "cust-3" "SVC003" "Claro Móvil"
           39.90 "S/." (due 12%Z) "Diciembre 2025" "Pendiente" ""]> ∅))))));
     _receipts := ∅ |}.

Definition _trace (function_name : string) (w : World) : World :=
  write (ESC +:+ "[95m" +:+ LF +:+ "FUNCTION: " +:+ function_name +:+ ESC +:+ "[0m" +:+ LF) w.

Definition list_favorite_services (customer_id : string) (w : World)
  : list ServiceInfo.t * World :=
  let w := _trace "list_favorite_services" w in
  let self := payment_plugin w in
  match _customer_favorites self !! customer_id with
  | Some favorite_ids => (omap (fun svc_id => _services self !! svc_id) favorite_ids, w)
  | None => ([], w)
  end.

Definition get_balance (account_id : string) (w : World) : BalanceInfo.t * World :=
  let w := _trace "get_balance" w in
  match _accounts (payment_plugin w) !! account_id with
  | Some account =>
      (BalanceInfo.mk (AccountInfo.balance account) (AccountInfo.currency account) "", w)
  | None =>
      (BalanceInfo.mk 0 "S/." ("Account " +:+ account_id +:+ " not found."), w)
  end.

Definition pay_service (account_id service_id : string) (amount : float) (w : World)
  : PaymentResult.t * World :=
  let w := _trace "pay_service" w in
  let self := payment_plugin w in
  match _accounts self !! account_id with
  | None =>
      (PaymentResult.mk "" "" ("Account " +:+ account_id +:+ " not found."), w)
  | Some account =>
      if (AccountInfo.balance account <? amount)%float then
        (PaymentResult.mk "" "" "Insufficient funds.", w)
      else
        match _services self !! service_id with
        | None =>
            (PaymentResult.mk "" "" ("Service " +:+ service_id +:+ " not found."), w)
        | Some service =>
            let account :=
              AccountInfo.mk (AccountInfo.id account)
                (AccountInfo.balance account - amount)%float
                (AccountInfo.currency account) in
            let '(u, w) := uuid4 w in
            let receipt_id := "RCP-" +:+ upper (prefix 12 (uuid_hex u)) in
            let '(timestamp, w) := utcnow w in
            let receipt :=
              ReceiptInfo.mk receipt_id account_id service_id
                (ServiceInfo.name service) amount (AccountInfo.currency account)
                (isoformat timestamp) in
            let self' :=
              {| _customer_favorites := _customer_favorites self;
                 _services := _services self;
                 _accounts := <[account_id := account]> (_accounts self);
                 _latest_bills := _latest_bills self;
                 _receipts := <[receipt_id := receipt]> (_receipts self) |} in
            (PaymentResult.mk receipt_id
               ("Pago de " +:+ format_2f amount +:+ " " +:+ AccountInfo.currency account
                +:+ " a " +:+ ServiceInfo.name service
                +:+ " realizado exitosamente. Fecha: " +:+ strftime_seconds timestamp)
               "",
             set_plugin self' w)
        end
  end.

Definition get_latest_bill (customer_id service_id : string) (w : World)
  : BillInfo.t * World :=
  let w := _trace "get_latest_bill" w in
  let self := payment_plugin w in
  let key := customer_id +:+ ":" +:+ service_id in
  match _latest_bills self !! key with
  | Some bill => (bill, w)
  | None =>
      match _services self !! service_id with
      | None =>
          (BillInfo.mk "" "" "" "" 0 "S/." "" "" ""
             ("Servicio " +:+ service_id +:+ " no encontrado."), w)
      | Some service =>
          (BillInfo.mk "" "" service_id (ServiceInfo.name service) 0 "S/." "" "" ""
             ("No se encontró factura pendiente para " +:+ ServiceInfo.name service +:+ "."), w)
      end
  end.

End Plugin.

(** ** pydantic's [BaseModel], as far as the repository relies on it *)

Inductive ftype := TStr | TFloat.

Record field := {
  field_name : string;
  field_type : ftype;
  field_default : option scalar;      (* None: the field is required *)
}.

Definition has_type (v : scalar) (t : ftype) : bool :=
  match v, t with
  | SStr _, TStr | SFloat _, TFloat => true
  | _, _ => false
  end.

(** [d.get(k)] *)
Fixpoint dict_get (k : string) (d : pydict) : option scalar :=
  match d with
  | [] => None
  | (k', v) :: d' => if String.eqb k k' then Some v else dict_get k d'
  end.

Definition declares (schema : list field) (k : string) : bool :=
  existsb (fun f => String.eqb k (field_name f)) schema.

(** The constructor call [Model] with keywords [d], under
    [model_config = {"extra": "forbid"}]: a key that is
    not a declared field is refused; a declared field takes the value given
    for it, which must have the declared type, or else its default. The
    result lists the field values in declaration order. *)
Definition validate_fields (schema : list field) (d : pydict) : option (list scalar) :=
  if forallb (fun kv => declares schema (fst kv)) d then
    mapM (fun f =>
            match dict_get (field_name f) d with
            | Some v => if has_type v (field_type f) then Some v else None
            | None => field_default f
            end) schema
  else None.

Class BaseModel (T : Type) := {
  class_name : string;
  model_fields : list field;
  field_values : T -> list scalar;            (* in declaration order *)
  from_values : list scalar -> option T;
}.

(** [x.model_dump()] *)
Definition model_dump {T} `{BaseModel T} (x : T) : pydict :=
  zip (map field_name model_fields) (field_values x).

(** The constructor call [T] with keywords [d]; None: ValidationError *)
Definition model_validate {T} `{BaseModel T} (d : pydict) : option T :=
  validate_fields model_fields d ≫= from_values.

(** The object [x] as the dynamically typed caller sees it. *)
Definition instance {T} `{BaseModel T} (x : T) : pyobj :=
  PyModel class_name (model_dump x).

Definition str_field (n : string) : field := Build_field n TStr (Some (SStr "")).

#[export] Instance ServiceInfo_model : BaseModel ServiceInfo.t := {|
  class_name := "ServiceInfo";
  model_fields := [str_field "id"; str_field "name"; str_field "category"];
  field_values x :=
    [SStr (ServiceInfo.id x); SStr (ServiceInfo.name x); SStr (ServiceInfo.category x)];
  from_values vs :=
    match vs with
    | [SStr a; SStr b; SStr c] => Some (ServiceInfo.mk a b c)
    | _ => None
    end |}.

#[export] Instance BalanceInfo_model : BaseModel BalanceInfo.t := {|
  class_name := "BalanceInfo";
  model_fields :=
    [Build_field "balance" TFloat None;
     Build_field "currency" TStr (Some (SStr "S/."));
     str_field "error_message"];
  field_values x :=
    [SFloat (BalanceInfo.balance x); SStr (BalanceInfo.currency x);
     SStr (BalanceInfo.error_message x)];
  from_values vs :=
    match vs with
    | [SFloat a; SStr b; SStr c] => Some (BalanceInfo.mk a b c)
    | _ => None
    end |}.

#[export] Instance PaymentResult_model : BaseModel PaymentResult.t := {|
  class_name := "PaymentResult";
  model_fields :=
    [str_field "receipt_id"; str_field "receipt_details"; str_field "error_message"];
  field_values x :=
    [SStr (PaymentResult.receipt_id x); SStr (PaymentResult.receipt_details x);
     SStr (PaymentResult.error_message x)];
  from_values vs :=
    match vs with
    | [SStr a; SStr b; SStr c] => Some (PaymentResult.mk a b c)
    | _ => None
    end |}.

#[export] Instance BillInfo_model : BaseModel BillInfo.t := {|
  class_name := "BillInfo";
  model_fields :=
    [str_field "bill_id"; str_field "customer_id"; str_field "service_id";
     str_field "service_name"; Build_field "amount" TFloat (Some (SFloat 0));
     Build_field "currency" TStr (Some (SStr "S/.")); str_field "due_date";
     str_field "period"; str_field "status"; str_field "error_message"];
  field_values x :=
    [SStr (BillInfo.bill_id x); SStr (BillInfo.customer_id x);
     SStr (BillInfo.service_id x); SStr (BillInfo.service_name x);
     SFloat (BillInfo.amount x); SStr (BillInfo.currency x);
     SStr (BillInfo.due_date x); SStr (BillInfo.period x);
     SStr (BillInfo.status x); SStr (BillInfo.error_message x)];
  from_values vs :=
    match vs with
    | [SStr a; SStr b; SStr c; SStr d; SFloat e; SStr f; SStr g; SStr h; SStr i; SStr j] =>
        Some (BillInfo.mk a b c d e f g h i j)
    | _ => None
    end |}.

(** ** plugins/foundry_wrappers.py *)

(** A callable of the function map: it receives the keyword arguments and
    runs in the process. *)
Abbreviation tool := (pydict -> World -> (exn + pyobj) * World).

(** [arguments[k]], expected to hold a string (resp. a number) as the tool's
    strict JSON schema declares. A value of another type is outside what the
    remote side may send; the model stops there with [SchemaViolation]. *)
Definition arg_str (k : string) (arguments : pydict) : exn + string :=
  match dict_get k arguments with
  | None => inl (KeyError k)
  | Some (SStr s) => inr s
  | Some _ => inl (SchemaViolation k)
  end.

Definition arg_float (k : string) (arguments : pydict) : exn + float :=
  match dict_get k arguments with
  | None => inl (KeyError k)
  | Some (SFloat x) => inr x
  | Some _ => inl (SchemaViolation k)
  end.

Section Wrappers.
Context `{PyRuntime}.

Definition handle_tool_call (tool_name : string) (arguments : pydict) (w : World)
  : (exn + pyobj) * World :=
  if String.eqb tool_name "list_favorite_services" then
    match arg_str "customer_id" arguments with
    | inl e => (inl e, w)
    | inr customer_id =>
        let '(r, w) := list_favorite_services customer_id w in
        (inr (PyList (map instance r)), w)
    end
  else if String.eqb tool_name "get_balance" then
    match arg_str "account_id" arguments with
    | inl e => (inl e, w)
    | inr account_id =>
        let '(r, w) := get_balance account_id w in (inr (instance r), w)
    end
  else if String.eqb tool_name "pay_service" then
    match arg_str "account_id" arguments with
    | inl e => (inl e, w)
    | inr account_id =>
        match arg_str "service_id" arguments with
        | inl e => (inl e, w)
        | inr service_id =>
            match arg_float "amount" arguments with
            | inl e => (inl e, w)
            | inr amount =>
                let '(r, w) := pay_service account_id service_id amount w in
                (inr (instance r), w)
            end
        end
    end
  else if String.eqb tool_name "get_latest_bill" then
    match arg_str "customer_id" arguments with
    | inl e => (inl e, w)
    | inr customer_id =>
        match arg_str "service_id" arguments with
        | inl e => (inl e, w)
        | inr service_id =>
            let '(r, w) := get_latest_bill customer_id service_id w in
            (inr (instance r), w)
        end
    end
  else (inl (ValueError ("Unknown tool: " +:+ tool_name)), w).

(** ** main.py *)

(** A [lambda p1, ..., pn: body] called with the keywords [arguments], which
    must be exactly the parameters. *)
Definition call_lambda (params : list string) (body : pydict -> World -> (exn + pyobj) * World)
  : tool :=
  fun arguments w =>
    if forallb (fun kv => existsb (String.eqb (fst kv)) params) arguments then
      match mapM (fun p => pair p <$> dict_get p arguments) params with
      | Some bound => body bound w
      | None => (inl (TypeError "missing required positional argument"), w)
      end
    else (inl (TypeError "got an unexpected keyword argument"), w).

(** The function map the module-level [runner] is built with. *)
Definition function_map_main : gmap string tool :=
  <["list_favorite_services" :=
      call_lambda ["customer_id"] (handle_tool_call "list_favorite_services")]>
  (<["get_balance" :=
      call_lambda ["account_id"] (handle_tool_call "get_balance")]>
  (<["pay_service" :=
      call_lambda ["account_id"; "service_id"; "amount"] (handle_tool_call "pay_service")]>
  (<["get_latest_bill" :=
      call_lambda ["customer_id"; "service_id"] (handle_tool_call "get_latest_bill")]> ∅))).

End Wrappers.

(** ** agents/models.py *)

Module ServiceSelectionResult.
Record t := mk {
  IsComplete : bool; ServiceId : string; ServiceName : string; UserMessage : string }.
End ServiceSelectionResult.

Module BalanceResult.
Record t := mk { Balance : float; Currency : string; ErrorMessage : string }.
End BalanceResult.

Module PaymentConfirmationResult.
Record t := mk {
  IsComplete : bool; Confirmed : bool; Amount : float; ServiceId : string;
  UserMessage : string }.
End PaymentConfirmationResult.

Module PaymentExecutionResult.
Record t := mk { ReceiptId : string; ReceiptDetails : string; ErrorMessage : string }.
End PaymentExecutionResult.

(** ** workflow_code.py *)

Record WorkflowState := {
  user_message : string;
  customer_id : string;
  account_id : string;
  service_selection : option ServiceSelectionResult.t;
  balance : option BalanceResult.t;
  confirmation : option PaymentConfirmationResult.t;
  payment : option PaymentExecutionResult.t;
}.

(** [WorkflowState()] *)
Definition WorkflowState_init : WorkflowState :=
  {| user_message := ""; customer_id := "cust-1"; account_id := "acct-123";
     service_selection := None; balance := None; confirmation := None;
     payment := None |}.

(** A chat message, by the text of each of its content items. *)
Record ChatMessage := { role : string; contents : list string }.

(** A [ChatAgent]: [agent.run(messages, arguments=...)] answers with the
    messages of the response. *)
Definition ChatAgent := list ChatMessage -> pydict -> list ChatMessage.

(** What a handler does to the outside, in order. *)
Inductive effect :=
| AgentRun (agent : ChatAgent) (messages : list ChatMessage) (arguments : pydict)
| Print (line : string)
| SendMessage (state : WorkflowState)      (* ctx.send_message *)
| YieldOutput (output : string).           (* ctx.yield_output *)

(** A handler run: the effects performed, then either an exception or the
    value returned. *)
Definition handler (A : Type) : Type := list effect * (exn + A).

#[export] Instance handler_ret : MRet handler := fun A x => ([], inr x).
#[export] Instance handler_bind : MBind handler := fun A B f m =>
  match m with
  | (t, inl e) => (t, inl e)
  | (t, inr x) => let '(t', r) := f x in (t ++ t', r)
  end.

Definition perform (e : effect) : handler unit := ([e], inr tt).
Definition raise {A} (e : exn) : handler A := ([], inl e).

(** [o is None] *)
Definition is_none {A} (o : option A) : bool :=
  match o with
  | None => true
  | Some _ => false
  end.

(** [o.attr] on a field that may hold [None]. *)
Definition deref {A} (o : option A) (what : string) : handler A :=
  match o with
  | Some x => mret x
  | None => raise (AttributeError ("'NoneType' object has no attribute of " +:+ what))
  end.

(** [l[-1]] *)
Definition last_item {A} (l : list A) : handler A :=
  match last l with
  | Some x => mret x
  | None => raise (IndexError "list index out of range")
  end.

(** [response.messages[-1].contents[-1].text] *)
Definition last_text (response : list ChatMessage) : handler string :=
  m ← last_item response; last_item (contents m).

Section Executors.
Context `{PyRuntime}.

(** [ServiceSelectionExecutor.handle_start]; [self_state] is the state object
    the executor holds, and the result is that object after the call. *)
Definition handle_start (agent : ChatAgent) (self_state : WorkflowState) (message : string)
  : handler WorkflowState :=
  let self_state :=
    {| user_message := message; customer_id := customer_id self_state;
       account_id := account_id self_state;
       service_selection := service_selection self_state;
       balance := balance self_state; confirmation := confirmation self_state;
       payment := payment self_state |} in
  let messages := [Build_ChatMessage "user" [message]] in
  let arguments := [("CustomerId", SStr (customer_id self_state))] in
  perform (AgentRun agent messages arguments);;
  text ← last_text (agent messages arguments);
  perform (Print ("ServiceSelectionAgent: " +:+ text));;
  perform (SendMessage self_state);;
  mret self_state.

(** [GetBalanceExecutor.handle_balance_check] *)
Definition handle_balance_check (agent : ChatAgent) (state : WorkflowState) : handler unit :=
  let arguments := [("AccountId", SStr (account_id state))] in
  perform (AgentRun agent [] arguments);;
  text ← last_text (agent [] arguments);
  perform (Print ("GetBalanceAgent: " +:+ text));;
  perform (SendMessage state).

(** [ConfirmationExecutor.handle_confirmation] *)
Definition handle_confirmation (agent : ChatAgent) (state : WorkflowState) : handler unit :=
  if is_none (service_selection state) || is_none (balance state) then
    perform (YieldOutput "Error: Missing required data")
  else
    sel ← deref (service_selection state) "service_selection";
    bal ← deref (balance state) "balance";
    let arguments :=
      [("CustomerId", SStr (customer_id state));
       ("ServiceId", SStr (ServiceSelectionResult.ServiceId sel));
       ("ServiceName", SStr (ServiceSelectionResult.ServiceName sel));
       ("Balance", SFloat (BalanceResult.Balance bal));
       ("Currency", SStr (BalanceResult.Currency bal))] in
    perform (AgentRun agent [] arguments);;
    text ← last_text (agent [] arguments);
    perform (Print ("ConfirmationAgent: " +:+ text));;
    perform (SendMessage state).

Definition cancelled_message : string :=
  "Entendido, no realizo el pago. ¿Quieres pagar otro servicio?".

Definition amount_message : string :=
  "El monto debe ser mayor que 0. No se pudo procesar el pago.".

Definition insufficient_funds_message (amount bal : float) (currency : string) : string :=
  "❌ Fondos insuficientes: El monto a pagar (" +:+ float_str amount +:+ " " +:+ currency
  +:+ ") " +:+ LF +:+ "es mayor que tu saldo disponible (" +:+ float_str bal +:+ " "
  +:+ currency +:+ ")." +:+ LF +:+ "No se realizó el pago. ¿Deseas pagar otro servicio?".

(** [DecisionExecutor.handle_decision]; [a > b] on floats is [b < a]. *)
Definition handle_decision (state : WorkflowState) : handler unit :=
  if is_none (confirmation state) then
    perform (YieldOutput "Error: No confirmation data")
  else
    conf ← deref (confirmation state) "confirmation";
    if negb (PaymentConfirmationResult.Confirmed conf) then
      perform (YieldOutput cancelled_message)
    else if PaymentConfirmationResult.Confirmed conf then
      if (PaymentConfirmationResult.Amount conf <=? 0)%float then
        perform (YieldOutput amount_message)
      else
        match balance state with
        | Some bal =>
            if (BalanceResult.Balance bal <? PaymentConfirmationResult.Amount conf)%float then
              perform (YieldOutput
                         (insufficient_funds_message (PaymentConfirmationResult.Amount conf)
                            (BalanceResult.Balance bal) (BalanceResult.Currency bal)))
            else perform (SendMessage state)
        | None => perform (SendMessage state)
        end
    else mret tt.

(** [PaymentExecutor.handle_payment] *)
Definition handle_payment (agent : ChatAgent) (state : WorkflowState) : handler unit :=
  if is_none (confirmation state) || is_none (service_selection state) then
    perform (YieldOutput "Error: Missing payment data")
  else
    sel ← deref (service_selection state) "service_selection";
    conf ← deref (confirmation state) "confirmation";
    let arguments :=
      [("AccountId", SStr (account_id state));
       ("ServiceId", SStr (ServiceSelectionResult.ServiceId sel));
       ("Amount", SFloat (PaymentConfirmationResult.Amount conf))] in
    perform (AgentRun agent [] arguments);;
    text ← last_text (agent [] arguments);
    perform (Print ("PaymentAgent: " +:+ text));;
    let receipt_message :=
      "✅ Pago confirmado — ReceiptId: "
      +:+ match payment state with
          | Some p => PaymentExecutionResult.ReceiptId p
          | None => "N/A"
          end
      +:+ LF
      +:+ match payment state with
          | Some p => PaymentExecutionResult.ReceiptDetails p
          | None => ""
          end
      +:+ LF +:+ "¿Deseas realizar otro pago?" in
    perform (YieldOutput receipt_message).

End Executors.

(** The executor ids and the edges [main] builds the workflow with. *)
Definition workflow_edges : list (string * string) :=
  [("select_service", "get_balance"); ("get_balance", "confirm_payment");
   ("confirm_payment", "decision"); ("decision", "pay")].

(** Where a message sent by executor [source] is delivered. *)
Definition targets (source : string) : list string :=
  map snd (filter (fun e => fst e = source) workflow_edges).

(** ** workflows/runner.py *)

Definition lower_ascii (c : ascii) : ascii :=
  let n := nat_of_ascii c in
  if (65 <=? n)%nat && (n <=? 90)%nat then ascii_of_nat (n + 32) else c.

Definition lower (s : string) : string :=
  string_of_list_ascii (map lower_ascii (list_ascii_of_string s)).

Definition colors : gmap string string :=
  <["cyan" := ESC +:+ "[96m"]> (<["yellow" := ESC +:+ "[93m"]>
  (<["darkgray" := ESC +:+ "[90m"]> (<["darkyellow" := ESC +:+ "[33m"]>
  (<["white" := ESC +:+ "[97m"]> (<["green" := ESC +:+ "[92m"]>
  (<["darkgreen" := ESC +:+ "[32m"]> (<["magenta" := ESC +:+ "[95m"]>
  (<["reset" := ESC +:+ "[0m"]> ∅)))))))).

Definition notify (message color : string) (w : World) : World :=
  let color_code := default (ESC +:+ "[96m") (colors !! lower color) in
  write (color_code +:+ message +:+ ESC +:+ "[0m" +:+ LF) w.

(** The [arguments] of a function call are serialized text (a [str]) or a
    value that is already structured. *)
Module FunctionCall.
Record t := mk { call_id : string; name : string; arguments : pyobj }.
End FunctionCall.

(** [{"type": "function_call_output", "call_id": ..., "output": ...}] *)
Module FunctionCallOutput.
Record t := mk { call_id : string; output : string }.
End FunctionCallOutput.

Inductive item :=
| WorkflowActionItem (action_id status : string)
| MessageItem (id role : string) (created_by_agent_name : option string)
| FunctionCallItem (call_id name : string) (arguments : pyobj) (status : string)
| OtherItem.

Record Usage := { total_tokens : N; input_tokens : N; output_tokens : N }.

Inductive event :=
| OutputItemAdded (it : item)
| OutputItemDone (it : item)
| OutputTextDelta (delta : string)
| OutputTextDone (text : string)
| Activity (activity : string)
| ResponseCompleted (usage : option Usage)
| OtherEvent.

Inductive request_input :=
| InputText (s : string)
| InputOutputs (outputs : list FunctionCallOutput.t).

Record request := {
  conversation : string;
  agent_reference : string;
  input : request_input;
}.

(** The remote side of [openai_client.responses.create]: the events it streams
    in answer to the last request of the conversation so far. One turn is a
    finite stream. *)
Definition openai := list request -> list event.

Record monitor_state := {
  has_streamed : bool;
  message_id : option string;
  pending_function_calls : list FunctionCall.t;
}.

Record loop_state := {
  is_complete : bool;
  current_input : string;
  tool_outputs : option (list FunctionCallOutput.t);
}.

Section Runner.
Context `{PyRuntime}.

(** The body of [async for event in stream]. *)
Definition monitor_event (st : monitor_state) (w : World) (ev : event)
  : monitor_state * World :=
  match ev with
  | OutputItemAdded it =>
      match it with
      | WorkflowActionItem _ _ => (st, w)
      | MessageItem id role created_by =>
          if String.eqb role "assistant" then
            if negb (bool_decide (Some id = message_id st)) then
              let w := if has_streamed st then write LF w else w in
              let agent_name :=
                match created_by with
                | Some n => upper n
                | None => "ASSISTANT"
                end in
              ({| has_streamed := false; message_id := Some id;
                  pending_function_calls := pending_function_calls st |},
               notify (LF +:+ agent_name +:+ ":") "cyan" w)
            else (st, w)
          else (st, w)
      | FunctionCallItem _ name _ _ => (st, notify ("Calling tool: " +:+ name) "white" w)
      | OtherItem => (st, w)
      end
  | OutputItemDone it =>
      match it with
      | FunctionCallItem call_id name arguments status =>
          if String.eqb status "completed" then
            ({| has_streamed := has_streamed st; message_id := message_id st;
                pending_function_calls :=
                  pending_function_calls st
                  ++ [FunctionCall.mk call_id name arguments] |}, w)
          else (st, w)
      | _ => (st, w)
      end
  | OutputTextDelta delta =>
      ({| has_streamed := true; message_id := message_id st;
          pending_function_calls := pending_function_calls st |}, write delta w)
  | OutputTextDone text =>
      if negb (String.eqb text "") && negb (has_streamed st) then
        ({| has_streamed := true; message_id := message_id st;
            pending_function_calls := pending_function_calls st |}, write text w)
      else (st, w)
  | Activity activity =>
      (st, notify (str_strip activity) "yellow" (notify (LF +:+ "ACTIVITY:") "cyan" w))
  | ResponseCompleted usage =>
      let w := if has_streamed st then write LF w else w in
      match usage with
      | Some u =>
          (st, notify ("[Tokens Total: " +:+ pretty (total_tokens u) +:+ ", Input: "
                       +:+ pretty (input_tokens u) +:+ ", Output: "
                       +:+ pretty (output_tokens u) +:+ "]") "darkgray" w)
      | None => (st, w)
      end
  | OtherEvent => (st, w)
  end.

Fixpoint monitor_events (events : list event) (st : monitor_state) (w : World)
  : monitor_state * World :=
  match events with
  | [] => (st, w)
  | ev :: rest => let '(st, w) := monitor_event st w ev in monitor_events rest st w
  end.

(** The [input] of the request: the tool outputs when there are any, else the
    user input. *)
Definition request_input_of (user_input : string)
  (tool_outputs : option (list FunctionCallOutput.t)) : request_input :=
  match tool_outputs with
  | Some (o :: os) => InputOutputs (o :: os)
  | _ => InputText user_input
  end.

(** [WorkflowRunner.monitor_workflow_async]; [history] is the conversation
    so far, and the request is appended to it. *)
Definition monitor_workflow_async (openai_client : openai)
  (conversation_id workflow_name user_input : string)
  (tool_outputs : option (list FunctionCallOutput.t))
  (history : list request) (w : World)
  : list FunctionCall.t * list request * World :=
  let request_params :=
    {| conversation := conversation_id; agent_reference := workflow_name;
       input := request_input_of user_input tool_outputs |} in
  let history := history ++ [request_params] in
  let stream := openai_client history in
  let '(st, w) :=
    monitor_events stream
      {| has_streamed := false; message_id := None; pending_function_calls := [] |} w in
  (pending_function_calls st, history, w).

(** [item.model_dump()] on an object that may lack the method. *)
Definition dump_item (o : pyobj) : exn + pyobj :=
  match o with
  | PyModel _ fields => inr (PyDict fields)
  | _ => inl (AttributeError "object has no attribute 'model_dump'")
  end.

Fixpoint dump_items (items : list pyobj) : exn + list pyobj :=
  match items with
  | [] => inr []
  | o :: rest =>
      match dump_item o with
      | inl e => inl e
      | inr d =>
          match dump_items rest with
          | inl e => inl e
          | inr ds => inr (d :: ds)
          end
      end
  end.

(** [WorkflowRunner.invoke_function] *)
Definition invoke_function (function_map : gmap string tool) (function_name : string)
  (arguments : pyobj) (w : World) : (exn + pyobj) * World :=
  let w := notify ("INPUT - Executing Function: " +:+ function_name) "magenta" w in
  match function_map !! function_name with
  | None =>
      (inl (ValueError ("Function " +:+ function_name +:+ " not found in function map")), w)
  | Some function_impl =>
      let parsed :=
        match arguments with
        | PyScalar (SStr s) =>
            match json_loads s with
            | Some v => inr v
            | None => inl JSONDecodeError
            end
        | _ => inr arguments
        end in
      match parsed with
      | inl e => (inl e, w)
      | inr (PyDict kwargs) =>
          match function_impl kwargs w with
          | (inl e, w) => (inl e, w)
          | (inr result, w) =>
              match result with
              | PyModel _ fields => (inr (PyDict fields), w)
              | PyList (PyModel c f :: rest) =>
                  match dump_items (PyModel c f :: rest) with
                  | inl e => (inl e, w)
                  | inr ds => (inr (PyList ds), w)
                  end
              | _ => (inr result, w)
              end
          end
      | inr _ => (inl (TypeError "argument after ** must be a mapping"), w)
      end
  end.

(** The [for func_call in function_calls] loop, appending to [tool_outputs]. *)
Fixpoint execute_calls (function_map : gmap string tool)
  (function_calls : list FunctionCall.t) (tool_outputs : list FunctionCallOutput.t)
  (w : World) : (exn + list FunctionCallOutput.t) * World :=
  match function_calls with
  | [] => (inr tool_outputs, w)
  | func_call :: rest =>
      match invoke_function function_map (FunctionCall.name func_call)
              (FunctionCall.arguments func_call) w with
      | (inl e, w) => (inl e, w)
      | (inr result, w) =>
          match json_dumps result with
          | None => (inl (TypeError "Object is not JSON serializable"), w)
          | Some out =>
              execute_calls function_map rest
                (tool_outputs
                 ++ [FunctionCallOutput.mk (FunctionCall.call_id func_call) out]) w
          end
      end
  end.

(** One pass through the body of [while not is_complete]. *)
Definition loop_body (function_map : gmap string tool) (openai_client : openai)
  (conversation_id workflow_name : string) (st : loop_state)
  (history : list request) (w : World)
  : (exn + loop_state) * list request * World :=
  let '(function_calls, history, w) :=
    monitor_workflow_async openai_client conversation_id workflow_name
      (current_input st) (tool_outputs st) history w in
  match function_calls with
  | _ :: _ =>
      match execute_calls function_map function_calls [] w with
      | (inl e, w) => (inl e, history, w)
      | (inr outputs, w) =>
          (inr {| is_complete := false; current_input := "";
                  tool_outputs := Some outputs |}, history, w)
      end
  | [] =>
      (inr {| is_complete := true; current_input := current_input st;
              tool_outputs := tool_outputs st |}, history, w)
  end.

(** How a call ends: it returns, or it raises. *)
Inductive outcome :=
| Returned
| Raised (e : exn).

(** The [while] loop; [fuel] bounds the number of times its condition is
    evaluated, and [None] says the loop is still running when that is used
    up. *)
Fixpoint while_not_complete (fuel : nat) (function_map : gmap string tool)
  (openai_client : openai) (conversation_id workflow_name : string) (st : loop_state)
  (history : list request) (w : World) : option outcome * list request * World :=
  match fuel with
  | O => (None, history, w)
  | S fuel' =>
      if is_complete st then (Some Returned, history, w)
      else
        match loop_body function_map openai_client conversation_id workflow_name
                st history w with
        | (inl e, history, w) => (Some (Raised e), history, w)
        | (inr st, history, w) =>
            while_not_complete fuel' function_map openai_client conversation_id
              workflow_name st history w
        end
  end.

(** [WorkflowRunner.execute_async] *)
Definition execute_async (fuel : nat) (function_map : gmap string tool)
  (openai_client : openai) (conversation_id workflow_name user_input : string)
  (history : list request) (w : World) : option outcome * list request * World :=
  while_not_complete fuel function_map openai_client conversation_id workflow_name
    {| is_complete := false; current_input := user_input; tool_outputs := None |}
    history w.

End Runner.

(** ** plugins/foundry_wrappers.py: the tool declarations *)

Inductive json_type := JsonString | JsonNumber.

Module JsonProperty.
Record t := mk { type : json_type; description : string }.
End JsonProperty.

(** [FunctionTool(name=..., parameters={"type": "object", "properties": ...,
    "required": ..., "additionalProperties": ...}, description=..., strict=...)] *)
Module FunctionTool.
Record t := mk {
  name : string;
  properties : list (string * JsonProperty.t);
  required : list string;
  additionalProperties : bool;
  description : string;
  strict : bool }.
End FunctionTool.





(** ** agents/factory.py *)

Module InputConfig.
Record t := mk { required : option bool; description : option string }.
End InputConfig.

(** One agent's entry of the YAML configuration; a key that is absent is
    [None]. *)
Module AgentConfig.
Record t := mk {
  instructions : option string;
  output_schema : option string;
  tools : option (list string);
  structured_inputs : option (list (string * InputConfig.t)) }.
End AgentConfig.

(** A loaded configuration file, by its [agents] mapping in file order. *)
Record Config := { agents : option (list (string * AgentConfig.t)) }.

Module StructuredInputDefinition.
Record t := mk { required : bool; description : string }.
End StructuredInputDefinition.

Module PromptAgentDefinition.
Record t (Tool JsonSchema : Type) := mk {
  model : string;
  instructions : string;
  structured_inputs : option (list (string * StructuredInputDefinition.t));
  text_format_name : string;
  text_format_schema : JsonSchema;
  tools : option (list Tool) }.
Arguments mk {Tool JsonSchema}.
Arguments model {Tool JsonSchema}.
Arguments instructions {Tool JsonSchema}.
Arguments structured_inputs {Tool JsonSchema}.
Arguments text_format_name {Tool JsonSchema}.
Arguments text_format_schema {Tool JsonSchema}.
Arguments tools {Tool JsonSchema}.
End PromptAgentDefinition.

Inductive agent_definition (Tool JsonSchema : Type) :=
| PromptAgent (definition : PromptAgentDefinition.t Tool JsonSchema)
| WorkflowAgent (workflow : string).
Arguments PromptAgent {Tool JsonSchema}.
Arguments WorkflowAgent {Tool JsonSchema}.

Module AgentVersion.
Record t := mk { id : string; name : string; version : string }.
End AgentVersion.

(** [x if x else None] on a list *)
Definition nonempty_or_none {A} (l : list A) : option (list A) :=
  match l with
  | [] => None
  | _ => Some l
  end.

(** [d[k] = v] on a [dict] in insertion order *)
Fixpoint dict_set {V} (k : string) (v : V) (d : list (string * V)) : list (string * V) :=
  match d with
  | [] => [(k, v)]
  | (k', v') :: d' => if String.eqb k k' then (k, v) :: d' else (k', v') :: dict_set k v d'
  end.

Fixpoint dict_lookup {V} (k : string) (d : list (string * V)) : option V :=
  match d with
  | [] => None
  | (k', v) :: d' => if String.eqb k k' then Some v else dict_lookup k d'
  end.

Section Factory.
Variables Schema Tool JsonSchema : Type.
(** [schema_model.model_json_schema()] *)
Variable model_json_schema : Schema -> JsonSchema.
(** The files under the repository root, parsed by [yaml.safe_load], and read
    as text. *)
Variable yaml_files : string -> exn + Config.
Variable text_files : string -> exn + string.

(** What has been created on the remote side, oldest first. *)
Definition creations := list (string * agent_definition Tool JsonSchema).

(** [project_client.agents.create_version]: the version the remote side
    answers with, given all it was asked to create so far. *)
Definition agents_client := creations -> AgentVersion.t.

Record AgentFactory := {
  model_deployment_name : string;
  schemas_registry : gmap string Schema;
  tools_registry : gmap string Tool;
}.

Definition load_agent_configs (config_file : string) : exn + Config :=
  yaml_files ("workflows/agents/" +:+ config_file).

(** The [for tool_name in tools] loop of [create_agent]. *)
Fixpoint collect_tools (self : AgentFactory) (tools : list string) (agent_tools : list Tool)
  : exn + list Tool :=
  match tools with
  | [] => inr agent_tools
  | tool_name :: rest =>
      match tools_registry self !! tool_name with
      | None => inl (ValueError ("Tool '" +:+ tool_name +:+ "' not found in tools registry"))
      | Some t => collect_tools self rest (agent_tools ++ [t])
      end
  end.

Definition create_agent (self : AgentFactory) (project_client : agents_client)
  (agent_name instructions : string) (output_schema_name : option string)
  (tools : option (list string))
  (structured_inputs : option (list (string * InputConfig.t)))
  (created : creations) (w : World)
  : (exn + AgentVersion.t) * creations * World :=
  let inputs :=
    map (fun '(input_name, input_config) =>
           (input_name,
            StructuredInputDefinition.mk
              (default false (InputConfig.required input_config))
              (default "" (InputConfig.description input_config))))
      (default [] structured_inputs) in
  match output_schema_name ≫= (fun n => pair n <$> schemas_registry self !! n) with
  | None =>
      (inl (ValueError ("Schema '" +:+ default "None" output_schema_name
                        +:+ "' not found in schemas registry")), created, w)
  | Some (schema_name, schema_model) =>
      match collect_tools self (default [] tools) [] with
      | inl e => (inl e, created, w)
      | inr agent_tools =>
          let definition :=
            PromptAgentDefinition.mk (model_deployment_name self) instructions
              (nonempty_or_none inputs) schema_name (model_json_schema schema_model)
              (nonempty_or_none agent_tools) in
          let created := created ++ [(agent_name, PromptAgent definition)] in
          let agent := project_client created in
          let w :=
            write ("Agent created (id: " +:+ AgentVersion.id agent +:+ ", name: "
                   +:+ AgentVersion.name agent +:+ ", version: "
                   +:+ AgentVersion.version agent +:+ ")" +:+ LF) w in
          (inr agent, created, w)
      end
  end.

Definition create_agent_from_config (self : AgentFactory) (project_client : agents_client)
  (agent_name config_file : string) (created : creations) (w : World)
  : (exn + AgentVersion.t) * creations * World :=
  match load_agent_configs config_file with
  | inl e => (inl e, created, w)
  | inr config =>
      let agents_config := default [] (agents config) in
      match dict_lookup agent_name agents_config with
      | None =>
          (inl (ValueError ("Agent '" +:+ agent_name +:+ "' not found in configuration file")),
           created, w)
      | Some agent_config =>
          create_agent self project_client agent_name
            (default "" (AgentConfig.instructions agent_config))
            (AgentConfig.output_schema agent_config)
            (Some (default [] (AgentConfig.tools agent_config)))
            (Some (default [] (AgentConfig.structured_inputs agent_config)))
            created w
      end
  end.

(** The [for agent_name in agent_names] loop of
    [create_all_agents_from_config]. *)
Fixpoint create_agents (self : AgentFactory) (project_client : agents_client)
  (config_file : string) (agent_names : list string)
  (created_agents : list (string * AgentVersion.t)) (created : creations) (w : World)
  : (exn + list (string * AgentVersion.t)) * creations * World :=
  match agent_names with
  | [] => (inr created_agents, created, w)
  | agent_name :: rest =>
      match create_agent_from_config self project_client agent_name config_file created w with
      | (inl e, created, w) => (inl e, created, w)
      | (inr agent, created, w) =>
          create_agents self project_client config_file rest
            (dict_set agent_name agent created_agents) created w
      end
  end.

Definition create_all_agents_from_config (self : AgentFactory)
  (project_client : agents_client) (config_file : string)
  (agent_names : option (list string)) (created : creations) (w : World)
  : (exn + list (string * AgentVersion.t)) * creations * World :=
  match load_agent_configs config_file with
  | inl e => (inl e, created, w)
  | inr config =>
      let agents_config := default [] (agents config) in
      let agent_names := default (map fst agents_config) agent_names in
      create_agents self project_client config_file agent_names [] created w
  end.

Definition create_workflow (project_client : agents_client)
  (workflow_name workflow_file : string) (created : creations) (w : World)
  : (exn + AgentVersion.t) * creations * World :=
  match text_files ("workflows/" +:+ workflow_file) with
  | inl e => (inl e, created, w)
  | inr workflow_yaml =>
      let created := created ++ [(workflow_name, WorkflowAgent workflow_yaml)] in
      let workflow := project_client created in
      let w :=
        write ("Workflow created (id: " +:+ AgentVersion.id workflow +:+ ", name: "
               +:+ AgentVersion.name workflow +:+ ", version: "
               +:+ AgentVersion.version workflow +:+ ")" +:+ LF) w in
      (inr workflow, created, w)
  end.

End Factory.

Arguments model_deployment_name {Schema Tool}.
Arguments schemas_registry {Schema Tool}.
Arguments tools_registry {Schema Tool}.
Arguments collect_tools {Schema Tool}.
Arguments create_agent {Schema Tool JsonSchema}.
Arguments create_agent_from_config {Schema Tool JsonSchema}.
Arguments create_agents {Schema Tool JsonSchema}.
Arguments create_all_agents_from_config {Schema Tool JsonSchema}.
Arguments create_workflow {Tool JsonSchema}.

(** ** The process at start-up, and inputs to run the model on *)

Section Process.
Context `{PyRuntime}.

(** The process once [payment_plugin = PaymentPlugin()] has run at the clock
    reading [now], with nothing printed and nothing read from the host yet. *)
Definition initial_world (now : Z) (uuids : nat -> N) (clock : nat -> Z) : World :=
  {| payment_plugin := PaymentPlugin_init now; stdout := [];
     uuid4_source := uuids; utcnow_source := clock;
     uuid4_reads := 0; utcnow_reads := 0 |}.

(** The worlds the process can be in: it starts in [initial_world], prints,
    and calls the plugin's methods. *)
Inductive reachable : World -> Prop :=
| reachable_initial now uuids clock : reachable (initial_world now uuids clock)
| reachable_write s w : reachable w -> reachable (write s w)
| reachable_list_favorite_services customer_id w :
    reachable w -> reachable (snd (list_favorite_services customer_id w))
| reachable_get_balance account_id w :
    reachable w -> reachable (snd (get_balance account_id w))
| reachable_pay_service account_id service_id amount w :
    reachable w -> reachable (snd (pay_service account_id service_id amount w))
| reachable_get_latest_bill customer_id service_id w :
    reachable w -> reachable (snd (get_latest_bill customer_id service_id w)).

End Process.

(** A runtime to run the model on concrete inputs. Its renderings are
    placeholders: every property below is proved for all runtimes. *)
Definition sample_runtime : PyRuntime := {|
  isoformat t := pretty t;
  strftime_seconds t := pretty t;
  format_2f _ := "0.00";
  float_str _ := "0.0";
  str_strip s := s;
  json_loads _ := None;
  json_dumps o :=
    match o with
    | PyModel _ _ => None
    | _ => Some "null"
    end |}.

Definition sample_world : World :=
  @initial_world sample_runtime 0 (fun n => N.of_nat n) (fun n => Z.of_nat n).

(** A remote side that asks for the balance in every turn. *)
Definition balance_call : FunctionCall.t :=
  FunctionCall.mk "call_1" "get_balance" (PyDict [("account_id", SStr "acct-123")]).

Definition insistent_remote : openai :=
  fun _ =>
    [OutputItemAdded
       (FunctionCallItem "call_1" "get_balance" (PyScalar (SStr "")) "in_progress");
     OutputItemDone (FunctionCallItem "call_1" "get_balance"
                       (PyDict [("account_id", SStr "acct-123")]) "completed");
     ResponseCompleted None].

(** ** Notions the properties are stated with *)

(** ["RCP-"] followed by twelve upper-case hexadecimal characters. *)
Definition is_receipt_id (s : string) : bool :=
  match list_ascii_of_string s with
  | "R" :: "C" :: "P" :: "-" :: l => (length l =? 12)%nat && forallb is_upper_hex l
  | _ => false
  end%char.

(** No balance is below zero. *)
Definition balances_not_negative (p : PaymentPlugin) : Prop :=
  map_Forall (fun _ account => (AccountInfo.balance account <? 0)%float = false)
    (_accounts p).

(** The function call an event completes, if it does: the item of an
    item-done event, when it is a function call whose status is
    "completed". *)
Definition completed_call (ev : event) : option FunctionCall.t :=
  match ev with
  | OutputItemDone (FunctionCallItem call_id name arguments status) =>
      if String.eqb status "completed"
      then Some (FunctionCall.mk call_id name arguments)
      else None
  | _ => None
  end.

Definition completed_calls (events : list event) : list FunctionCall.t :=
  omap completed_call events.

(** The plain map [d] has exactly the declared fields of [x]'s class, and
    building the class from it gives [x] back. *)
Definition round_trips {T} `{BaseModel T} (x : T) (d : pydict) : Prop :=
  map fst d = map field_name model_fields /\ model_validate d = Some x.

(** [raw] is a record of class [T], and [converted] its plain map. *)
Definition record_of (T : Type) `{BaseModel T} (raw converted : pyobj) : Prop :=
  exists x : T,
    raw = instance x /\ converted = PyDict (model_dump x)
    /\ round_trips x (model_dump x).

(** [raw] is a list of records of class [T], and [converted] the list of
    their plain maps. *)
Definition records_of (T : Type) `{BaseModel T} (raw converted : pyobj) : Prop :=
  exists xs : list T,
    raw = PyList (map instance xs)
    /\ converted = PyList (map (fun x => PyDict (model_dump x)) xs)
    /\ Forall (fun x => round_trips x (model_dump x)) xs.

(** What a tool of the function map returns: a record, or a list of
    records, of the plugin's classes. *)
Definition tool_result (raw : pyobj) : Prop :=
  (exists x : BalanceInfo.t, raw = instance x)
  \/ (exists x : PaymentResult.t, raw = instance x)
  \/ (exists x : BillInfo.t, raw = instance x)
  \/ (exists xs : list ServiceInfo.t, raw = PyList (map instance xs)).

(** *** The plugin's data *)

(** [":" in s] *)
Fixpoint has_colon (s : string) : bool :=
  match s with
  | EmptyString => false
  | String c s' => Ascii.eqb c ":" || has_colon s'
  end.

Section PluginNotions.
Context `{PyRuntime}.

(** The tables no method writes to are those [__init__] built. *)
Definition static_data (now : Z) (p : PaymentPlugin) : Prop :=
  _customer_favorites p = _customer_favorites (PaymentPlugin_init now)
  /\ _services p = _services (PaymentPlugin_init now)
  /\ _latest_bills p = _latest_bills (PaymentPlugin_init now).

(** The accounts are the two of [__init__], each stored under its own id and
    held in the same currency. *)
Definition accounts_consistent (p : PaymentPlugin) : Prop :=
  (forall k, is_Some (_accounts p !! k) <-> k = "acct-123" \/ k = "acct-124")
  /\ (forall k account,
         _accounts p !! k = Some account ->
         AccountInfo.id account = k /\ AccountInfo.currency account = "S/.").

(** Every receipt is stored under its own, well-formed id and names a
    registered account and a registered service. *)
Definition receipts_consistent (p : PaymentPlugin) : Prop :=
  forall k receipt,
    _receipts p !! k = Some receipt ->
    ReceiptInfo.receipt_id receipt = k
    /\ is_receipt_id k = true
    /\ is_Some (_accounts p !! ReceiptInfo.account_id receipt)
    /\ (exists service,
           _services p !! ReceiptInfo.service_id receipt = Some service
           /\ ReceiptInfo.service_name receipt = ServiceInfo.name service)
    /\ ReceiptInfo.currency receipt = "S/.".

Definition plugin_consistent (now : Z) (p : PaymentPlugin) : Prop :=
  static_data now p /\ accounts_consistent p /\ receipts_consistent p.

(** A stored bill sits under the key joined from its own customer and
    service ids, neither of which holds a colon, and carries no error. *)
Definition bill_well_keyed (key : string) (bill : BillInfo.t) : Prop :=
  key = BillInfo.customer_id bill +:+ ":" +:+ BillInfo.service_id bill
  /\ has_colon (BillInfo.customer_id bill) = false
  /\ has_colon (BillInfo.service_id bill) = false
  /\ BillInfo.error_message bill = "".

End PluginNotions.

(** *** The process and the remote side *)

(** [w'] is [w] with more printed: the plugin and the host's sources of
    UUIDs and time are as they were. *)
Definition only_printed (w w' : World) : Prop :=
  payment_plugin w' = payment_plugin w
  /\ uuid4_source w' = uuid4_source w /\ utcnow_source w' = utcnow_source w
  /\ uuid4_reads w' = uuid4_reads w /\ utcnow_reads w' = utcnow_reads w
  /\ exists printed, stdout w' = stdout w ++ printed.

(** A request that resumes the conversation with a non-empty batch of tool
    outputs. *)
Definition later_request (conversation_id workflow_name : string) (r : request) : Prop :=
  conversation r = conversation_id
  /\ agent_reference r = workflow_name
  /\ exists o os, input r = InputOutputs (o :: os).

(** The requests of one [execute_async] call: the first carries the user's
    text, every later one a non-empty batch of tool outputs, all in the same
    conversation with the same workflow. *)
Definition run_requests (conversation_id workflow_name user_input : string)
  (requests : list request) : Prop :=
  match requests with
  | [] => True
  | first :: later =>
      first = {| conversation := conversation_id; agent_reference := workflow_name;
                 input := InputText user_input |}
      /\ Forall (later_request conversation_id workflow_name) later
  end.

(** [hasattr(o, 'model_dump')] *)
Definition is_model (o : pyobj) : bool :=
  match o with
  | PyModel _ _ => true
  | _ => false
  end.

(** *** The executors *)

(** The states a handler run passed on with [ctx.send_message]. *)
Definition forwarded {A} (run : handler A) : list WorkflowState :=
  omap (fun e => match e with SendMessage s => Some s | _ => None end) (fst run).

(** The outputs a handler run ended the workflow with. *)
Definition yielded {A} (run : handler A) : list string :=
  omap (fun e => match e with YieldOutput s => Some s | _ => None end) (fst run).

(** The arguments of the agent calls of a handler run. *)
Definition agent_arguments {A} (run : handler A) : list pydict :=
  omap (fun e => match e with AgentRun _ _ arguments => Some arguments | _ => None end)
    (fst run).

(** The run acted on the workflow at most once, and not at all if it
    raised. *)
Definition acts_once {A} (run : handler A) : Prop :=
  length (forwarded run) + length (yielded run) <= 1
  /\ (forall e, snd run = inl e -> forwarded run = [] /\ yielded run = []).

(** *** The tool declarations *)



(** ** More inputs to run the model on *)

(** A state in which the user confirmed 20.00 against a balance of 50.00. *)
Definition sample_state : WorkflowState :=
  {| user_message := "pagar luz"; customer_id := "cust-1"; account_id := "acct-123";
     service_selection :=
       Some (ServiceSelectionResult.mk true "SVC001" "Luz del Sur" "");
     balance := Some (BalanceResult.mk 50.00%float "S/." "");
     confirmation :=
       Some (PaymentConfirmationResult.mk true true 20.00%float "SVC001" "");
     payment := None |}.

(** The process after two payments of -1e308 from acct-123: the balance has
    overflowed to infinity. *)
Definition overflowed_world : World :=
  snd (@pay_service sample_runtime "acct-123" "SVC001" (-1e308)%float
         (snd (@pay_service sample_runtime "acct-123" "SVC001" (-1e308)%float
                 sample_world))).

(** The first pass of the loop against the insistent remote side. *)
Definition first_turn : list FunctionCall.t * list request * World :=
  @monitor_workflow_async sample_runtime insistent_remote "conv_1"
    "service-payment-workflow" "hola" None [] sample_world.

(** An agent that answers every call with one message. *)
Definition answering_agent : ChatAgent :=
  fun _ _ => [Build_ChatMessage "assistant" ["ok"]].

(** A remote side that asks for a function the function map does not have. *)
Definition unknown_call_remote : openai :=
  fun _ =>
    [OutputItemDone (FunctionCallItem "call_7" "refund_payment" (PyDict []) "completed");
     ResponseCompleted None].

(** * Properties *)

(** ** Binary64 arithmetic *)

Local Open Scope float_scope.

Lemma SFcompare_antisym x y :
  SFcompare y x = option_map CompOpp (SFcompare x y).
Proof.
  destruct x as [sx|sx| |sx mx ex], y as [sy|sy| |sy my ey]; simpl;
    try destruct sx; try destruct sy; try reflexivity.
  all: rewrite (Z.compare_antisym ex ey);
    destruct (ex ?= ey)%Z; simpl; try reflexivity;
    change (Pos.compare_cont Eq my mx) with (my ?= mx)%positive;
    change (Pos.compare_cont Eq mx my) with (mx ?= my)%positive;
    rewrite (Pos.compare_antisym mx my); try reflexivity;
    destruct (mx ?= my)%positive; reflexivity.
Qed.

Lemma SFcompare_refl x :
  SFcompare x x = match x with S754_nan => None | _ => Some Eq end.
Proof.
  destruct x as [s|s| |s m e]; simpl; try destruct s; try reflexivity;
    rewrite Z.compare_refl;
    change (Pos.compare_cont Eq m m) with (m ?= m)%positive;
    rewrite Pos.compare_refl; reflexivity.
Qed.

(** [x < x] is false, also for NaN. *)
Lemma ltb_irrefl x : (x <? x) = false.
Proof.
  rewrite FloatAxioms.ltb_spec. unfold SFltb. rewrite SFcompare_refl.
  destruct (Prim2SF x); reflexivity.
Qed.

Lemma leb_not_gt a b : (a <=? b) = true -> (b <? a) = false.
Proof.
  rewrite FloatAxioms.leb_spec, FloatAxioms.ltb_spec. unfold SFleb, SFltb.
  rewrite (SFcompare_antisym (Prim2SF a) (Prim2SF b)).
  destruct (SFcompare (Prim2SF a) (Prim2SF b)) as [[]|]; simpl; congruence.
Qed.

Lemma ltb_not_ge a b : (a <? b) = true -> (b <=? a) = false.
Proof.
  rewrite FloatAxioms.leb_spec, FloatAxioms.ltb_spec. unfold SFleb, SFltb.
  rewrite (SFcompare_antisym (Prim2SF a) (Prim2SF b)).
  destruct (SFcompare (Prim2SF a) (Prim2SF b)) as [[]|]; simpl; congruence.
Qed.

Lemma ltb_leb a b : (a <? b) = true -> (a <=? b) = true.
Proof.
  rewrite FloatAxioms.leb_spec, FloatAxioms.ltb_spec. unfold SFleb, SFltb.
  destruct (SFcompare (Prim2SF a) (Prim2SF b)) as [[]|]; congruence.
Qed.

Lemma is_finite_spec x :
  is_finite x = true ->
  match Prim2SF x with
  | S754_zero _ | S754_finite _ _ _ => True
  | _ => False
  end.
Proof.
  unfold is_finite, is_nan, is_infinity.
  rewrite !FloatAxioms.eqb_spec, FloatAxioms.abs_spec. unfold SFeqb.
  rewrite SFcompare_refl.
  change (Prim2SF infinity) with (S754_infinity false).
  destruct (Prim2SF x) as [s|s| |s m e]; simpl; try destruct s; simpl;
    try discriminate; auto.
Qed.

(** A finite [x] minus itself is [+0.0]. *)
Lemma sub_diag x : is_finite x = true -> x - x = 0.
Proof.
  intros Hf. apply is_finite_spec in Hf.
  apply Prim2SF_inj. rewrite FloatAxioms.sub_spec.
  change (Prim2SF 0) with (S754_zero false).
  destruct (Prim2SF x) as [s|s| |s m e]; try contradiction.
  - destruct s; reflexivity.
  - unfold SF64sub, SFsub. rewrite Z.sub_diag. reflexivity.
Qed.

(** A value that is not below zero is not below a negative one. *)
Lemma ltb_negative b a :
  (b <? 0) = false -> (a <? 0) = true -> (b <? a) = false.
Proof.
  rewrite !FloatAxioms.ltb_spec. change (Prim2SF 0) with (S754_zero false). unfold SFltb.
  destruct (Prim2SF b) as [sb|sb| |sb mb eb], (Prim2SF a) as [sa|sa| |sa ma ea];
    simpl; try destruct sb; try destruct sa; simpl; congruence.
Qed.

(** Subtracting a negative value adds its absolute value. *)
Lemma sub_negative b a : (a <? 0) = true -> b - a = b + abs a.
Proof.
  rewrite FloatAxioms.ltb_spec. change (Prim2SF 0) with (S754_zero false). unfold SFltb.
  intros Ha. apply Prim2SF_inj.
  rewrite FloatAxioms.sub_spec, FloatAxioms.add_spec, FloatAxioms.abs_spec.
  destruct (Prim2SF a) as [sa|sa| |sa ma ea]; simpl in Ha; try destruct sa;
    try discriminate;
    destruct (Prim2SF b) as [sb|sb| |sb mb eb]; try destruct sb; try reflexivity;
    unfold SF64sub, SF64add, SFsub, SFadd, SFabs, cond_Zopp;
    rewrite ?Z.sub_opp_r; reflexivity.
Qed.

Lemma digits2_size m : digits2_pos m = Pos.size m.
Proof. induction m; simpl; congruence. Qed.

Lemma shl_align_value m e ez :
  (ez <= e)%Z -> Z.pos (fst (shl_align m e ez)) = (Z.pos m * 2 ^ (e - ez))%Z.
Proof.
  intros Hle. unfold shl_align.
  destruct (ez - e)%Z as [|d|d] eqn:Hd; try lia.
  - replace (e - ez)%Z with 0%Z by lia. rewrite Z.pow_0_r. cbn [fst]. lia.
  - cbn [fst]. replace (e - ez)%Z with (Z.pos d) by lia.
    change (Pos.iter xO m d) with (shift_pos d m).
    rewrite shift_pos_correct, Z.pow_pos_fold. lia.
Qed.

Lemma binary_normalize_nonneg z e :
  (0 <= z)%Z -> SFltb (binary_normalize prec emax z e false) (S754_zero false) = false.
Proof.
  intros Hz. destruct z as [|m|m]; try lia; try reflexivity.
  unfold binary_normalize, binary_round, binary_round_aux.
  destruct (shl_align m e _) as [mz ez].
  destruct (shr_fexp prec emax (Z.pos mz) ez loc_Exact) as [mrs' e'].
  destruct (shr_fexp prec emax _ e' loc_Exact) as [mrs'' e''].
  destruct (shr_m mrs''); try reflexivity.
  destruct (e'' <=? emax - prec)%Z; reflexivity.
Qed.

(** The mantissa of a binary64 value has at most 53 bits, and exactly 53
    above the smallest exponent. *)
Lemma bounded_mantissa m e :
  bounded prec emax m e = true ->
  (Z.pos m < 2 ^ 53)%Z /\ (-1074 <= e)%Z /\ ((-1074 < e)%Z -> (2 ^ 52 <= Z.pos m)%Z).
Proof.
  unfold bounded, canonical_mantissa, fexp, emin. rewrite digits2_size.
  change prec with 53%Z. change emax with 1024%Z.
  intros Hb. apply andb_prop in Hb as [Hc _]. apply Z.eqb_eq in Hc.
  pose proof (Pos.size_gt m) as Hgt. pose proof (Pos.size_le m) as Hle.
  apply Pos2Z.pos_lt_pos in Hgt. apply Pos2Z.pos_le_pos in Hle.
  rewrite Pos2Z.inj_pow in Hgt, Hle.
  split; [|split]; try lia.
  - assert (Hs : (Z.pos (Pos.size m) <= 53)%Z) by lia.
    eapply Z.lt_le_trans; [exact Hgt|]. apply Z.pow_le_mono_r; lia.
  - intros He. assert (Hs : Z.pos (Pos.size m) = 53%Z) by lia.
    rewrite Hs in Hle. change (2 ^ 53)%Z with (2 * 2 ^ 52)%Z in Hle. lia.
Qed.

(** What is left of a value that was not below zero, after a subtraction the
    balance check lets through, is not below zero. *)
Lemma sub_nonneg b a :
  (b <? 0) = false -> (b <? a) = false -> (b - a <? 0) = false.
Proof.
  rewrite !FloatAxioms.ltb_spec, FloatAxioms.sub_spec. change (Prim2SF 0) with (S754_zero false).
  pose proof (Prim2SF_valid b) as Vb. pose proof (Prim2SF_valid a) as Va.
  intros H0 Hlt. unfold SFltb in H0, Hlt.
  destruct (Prim2SF b) as [sb|sb| |sb mb eb], (Prim2SF a) as [sa|sa| |sa ma ea];
    try destruct sb; try destruct sa; cbn in H0, Hlt;
    try discriminate H0; try discriminate Hlt; try reflexivity;
    unfold SF64sub, SFsub; apply binary_normalize_nonneg;
    change (cond_Zopp false ?x) with x; change (cond_Zopp true ?x) with (- x)%Z;
    try lia.
  apply bounded_mantissa in Vb as (Hb1 & Hb2 & Hb3).
  apply bounded_mantissa in Va as (Ha1 & Ha2 & Ha3).
  destruct (Z.compare_spec eb ea) as [He|He|He]; try discriminate.
  - subst ea. rewrite Z.min_id, !shl_align_value, Z.sub_diag by lia.
    change (Pos.compare_cont Eq mb ma) with (mb ?= ma)%positive in Hlt.
    destruct (Pos.compare_spec mb ma); try discriminate; lia.
  - rewrite Z.min_r, !shl_align_value by lia. rewrite Z.sub_diag.
    specialize (Hb3 ltac:(lia)).
    assert (2 * 1 <= 2 ^ (eb - ea))%Z.
    { replace (eb - ea)%Z with (Z.succ (eb - ea - 1)) by lia.
      rewrite Z.pow_succ_r by lia.
      assert (0 < 2 ^ (eb - ea - 1))%Z by (apply Z.pow_pos_nonneg; lia). lia. }
    change (2 ^ 53)%Z with (2 ^ 52 * 2)%Z in Ha1. nia.
Qed.

Local Close Scope float_scope.

(** ** Receipt identifiers *)

Lemma hex_char_lower d : is_lower_hex (hex_char d) = true.
Proof.
  destruct d as [|p]; [reflexivity|].
  repeat (destruct p as [p|p|]; try reflexivity).
Qed.

Lemma hex_digits_length k n : length (hex_digits k n) = k.
Proof.
  revert n. induction k as [|k IH]; intros n; simpl; [reflexivity|].
  rewrite length_app, IH. simpl. lia.
Qed.

Lemma hex_digits_lower k n : forallb is_lower_hex (hex_digits k n) = true.
Proof.
  revert n. induction k as [|k IH]; intros n; simpl; [reflexivity|].
  rewrite forallb_app, IH. simpl. rewrite hex_char_lower. reflexivity.
Qed.

Lemma upper_ascii_hex c : is_lower_hex c = true -> is_upper_hex (upper_ascii c) = true.
Proof.
  destruct c as [b0 b1 b2 b3 b4 b5 b6 b7].
  destruct b0, b1, b2, b3, b4, b5, b6, b7; vm_compute; congruence.
Qed.

Lemma forallb_firstn {A} (p : A -> bool) n l :
  forallb p l = true -> forallb p (firstn n l) = true.
Proof.
  revert n. induction l as [|x l IH]; intros [|n]; simpl; auto.
  intros Hx. apply andb_prop in Hx as [-> Hl]. simpl. auto.
Qed.

Lemma forallb_map {A B} (p : B -> bool) (q : A -> bool) (f : A -> B) l :
  (forall x, q x = true -> p (f x) = true) ->
  forallb q l = true -> forallb p (map f l) = true.
Proof.
  intros Hf. induction l as [|x l IH]; simpl; auto.
  intros Hx. apply andb_prop in Hx as [Hq Hl]. rewrite (Hf x Hq). simpl. auto.
Qed.

Lemma receipt_id_format u :
  is_receipt_id ("RCP-" +:+ upper (prefix 12 (uuid_hex u))) = true.
Proof.
  unfold is_receipt_id, upper, prefix, uuid_hex.
  rewrite !list_ascii_of_string_of_list_ascii.
  change (list_ascii_of_string ("RCP-" +:+ ?s))
    with ("R" :: "C" :: "P" :: "-" :: list_ascii_of_string s)%char.
  rewrite list_ascii_of_string_of_list_ascii.
  apply andb_true_intro. split.
  - apply Nat.eqb_eq. rewrite length_map, length_firstn, hex_digits_length. reflexivity.
  - apply (forallb_map _ is_lower_hex); [exact upper_ascii_hex|].
    apply forallb_firstn, hex_digits_lower.
Qed.

(** ** The payment plugin *)

Lemma payment_plugin_write s w : payment_plugin (write s w) = payment_plugin w.
Proof. reflexivity. Qed.

(** Enter a plugin method: past its trace line, the plugin is the caller's. *)
Tactic Notation "enter_method" reference(f) :=
  unfold f, _trace; cbv zeta; rewrite ?payment_plugin_write.

Section PluginProperties.
Context `{PyRuntime}.

(** C6: a payment of 100.00 from an account holding 20.50 is refused with a
    non-empty error message and an empty receipt id, and the balance stays
    at 20.50; and every [pay_service] call that returns a non-empty error
    message leaves the plugin, with all its balances and its receipts, as it
    was. *)
Theorem pay_service_failure_changes_nothing :
  (forall service_id account w,
      _accounts (payment_plugin w) !! "acct-123" = Some account ->
      AccountInfo.balance account = 20.50%float ->
      let result := fst (pay_service "acct-123" service_id 100.00%float w) in
      let w' := snd (pay_service "acct-123" service_id 100.00%float w) in
      PaymentResult.error_message result = "Insufficient funds."
      /\ PaymentResult.error_message result <> ""
      /\ PaymentResult.receipt_id result = ""
      /\ _accounts (payment_plugin w') !! "acct-123" = Some account
      /\ _receipts (payment_plugin w') = _receipts (payment_plugin w))
  /\ (forall account_id service_id amount w,
         let result := fst (pay_service account_id service_id amount w) in
         let w' := snd (pay_service account_id service_id amount w) in
         PaymentResult.error_message result <> "" ->
         PaymentResult.receipt_id result = ""
         /\ _accounts (payment_plugin w') = _accounts (payment_plugin w)
         /\ _receipts (payment_plugin w') = _receipts (payment_plugin w)
         /\ payment_plugin w' = payment_plugin w).
Proof.
  split.
  - intros service_id account w Hacc Hbal. enter_method pay_service.
    rewrite Hacc, Hbal.
    change (20.50 <? 100.00)%float with true. cbn.
    repeat split; try assumption. discriminate.
  - intros account_id service_id amount w. enter_method pay_service.
    destruct (_accounts (payment_plugin w) !! account_id) as [account|];
      [|cbn; auto].
    destruct (AccountInfo.balance account <? amount)%float; [cbn; auto|].
    destruct (_services (payment_plugin w) !! service_id) as [service|];
      [|cbn; auto].
    cbn. intros Herr. contradiction Herr. reflexivity.
Qed.

End PluginProperties.

(** At start-up, 100.00 to SVC001 from acct-123 is refused and changes nothing. *)
Lemma pay_service_failure_changes_nothing_witness :
  let call := @pay_service sample_runtime "acct-123" "SVC001" 100.00%float sample_world in
  PaymentResult.error_message (fst call) <> ""
  /\ _accounts (payment_plugin (snd call)) !! "acct-123"
     = Some (AccountInfo.mk "acct-123" 20.50%float "S/.")
  /\ payment_plugin (snd call) = payment_plugin sample_world.
Proof.
  pose proof (@pay_service_failure_changes_nothing sample_runtime) as [Hscenario Hany].
  specialize (Hscenario "SVC001" (AccountInfo.mk "acct-123" 20.50%float "S/.") sample_world).
  specialize (Hany "acct-123" "SVC001" 100.00%float sample_world).
  cbv zeta in *.
  destruct Hscenario as (_ & Herr & _ & Hacc & _); [reflexivity | reflexivity |].
  split; [exact Herr|]. split; [exact Hacc|]. apply Hany. exact Herr.
Defined.

Section PaymentProperties.
Context `{PyRuntime}.

(** What [pay_service] returns and leaves behind once the account is found,
    the balance check passes and the service is found. *)
Lemma pay_service_success account_id service_id amount account service w :
  _accounts (payment_plugin w) !! account_id = Some account ->
  (AccountInfo.balance account <? amount)%float = false ->
  _services (payment_plugin w) !! service_id = Some service ->
  let call := pay_service account_id service_id amount w in
  let receipt_id :=
    "RCP-" +:+ upper (prefix 12 (uuid_hex (uuid4_source w (uuid4_reads w)))) in
  PaymentResult.error_message (fst call) = ""
  /\ PaymentResult.receipt_id (fst call) = receipt_id
  /\ _accounts (payment_plugin (snd call))
     = <[account_id :=
           AccountInfo.mk (AccountInfo.id account)
             (AccountInfo.balance account - amount)%float
             (AccountInfo.currency account)]> (_accounts (payment_plugin w))
  /\ _services (payment_plugin (snd call)) = _services (payment_plugin w)
  /\ is_Some (_receipts (payment_plugin (snd call)) !! receipt_id).
Proof.
  intros Hacc Hlt Hsvc. enter_method pay_service.
  rewrite Hacc, Hlt, Hsvc. cbn.
  repeat split; try reflexivity.
  rewrite lookup_insert_eq. eauto.
Qed.

(** C7: from a balance of 20.50, paying 15.00 to a registered service
    succeeds with an empty error message and a receipt id made of RCP- and
    twelve upper-case hexadecimal characters; the balance becomes 5.50, and
    [get_balance] then reports 5.50. *)
Theorem pay_service_then_get_balance :
  forall service_id service account w,
    _accounts (payment_plugin w) !! "acct-123" = Some account ->
    AccountInfo.balance account = 20.50%float ->
    _services (payment_plugin w) !! service_id = Some service ->
    let paid := pay_service "acct-123" service_id 15.00%float w in
    let asked := get_balance "acct-123" (snd paid) in
    PaymentResult.error_message (fst paid) = ""
    /\ is_receipt_id (PaymentResult.receipt_id (fst paid)) = true
    /\ AccountInfo.balance <$> _accounts (payment_plugin (snd paid)) !! "acct-123"
       = Some 5.50%float
    /\ BalanceInfo.balance (fst asked) = 5.50%float
    /\ BalanceInfo.error_message (fst asked) = "".
Proof.
  intros service_id service account w Hacc Hbal Hsvc paid asked.
  assert (Hlt : (AccountInfo.balance account <? 15.00)%float = false)
    by (rewrite Hbal; reflexivity).
  destruct (pay_service_success "acct-123" service_id 15.00%float account service w
              Hacc Hlt Hsvc) as (Herr & Hrid & Haccs & _ & _).
  fold paid in Herr, Hrid, Haccs.
  assert (Hnew : AccountInfo.balance <$> _accounts (payment_plugin (snd paid)) !! "acct-123"
                 = Some 5.50%float).
  { rewrite Haccs, lookup_insert_eq. cbn. rewrite Hbal. reflexivity. }
  split; [exact Herr|]. split; [rewrite Hrid; apply receipt_id_format|].
  split; [exact Hnew|].
  subst asked. enter_method get_balance.
  destruct (_accounts (payment_plugin (snd paid)) !! "acct-123") as [account'|];
    [|discriminate Hnew].
  cbn in Hnew |- *. split; [congruence | reflexivity].
Qed.

Lemma list_favorite_services_plugin customer_id w :
  payment_plugin (snd (list_favorite_services customer_id w)) = payment_plugin w.
Proof.
  enter_method list_favorite_services.
  destruct (_ !! customer_id); reflexivity.
Qed.

Lemma get_balance_plugin account_id w :
  payment_plugin (snd (get_balance account_id w)) = payment_plugin w.
Proof.
  enter_method get_balance.
  destruct (_ !! account_id); reflexivity.
Qed.

Lemma get_latest_bill_plugin customer_id service_id w :
  payment_plugin (snd (get_latest_bill customer_id service_id w)) = payment_plugin w.
Proof.
  enter_method get_latest_bill.
  destruct (_latest_bills _ !! _); [reflexivity|].
  destruct (_services _ !! _); reflexivity.
Qed.

Lemma pay_service_not_negative account_id service_id amount w :
  balances_not_negative (payment_plugin w) ->
  balances_not_negative (payment_plugin (snd (pay_service account_id service_id amount w))).
Proof.
  intros Hinv. enter_method pay_service.
  destruct (_accounts (payment_plugin w) !! account_id) as [account|] eqn:Hacc;
    [|exact Hinv].
  destruct (AccountInfo.balance account <? amount)%float eqn:Hlt; [exact Hinv|].
  destruct (_services (payment_plugin w) !! service_id) as [service|];
    [|exact Hinv].
  cbn. apply map_Forall_insert_2; [|exact Hinv].
  cbn. apply sub_nonneg; [|exact Hlt]. exact (Hinv _ _ Hacc).
Qed.

(** The plugin keeps every balance at or above zero (or NaN), whatever is
    called with whatever amounts. *)
Lemma reachable_not_negative w : reachable w -> balances_not_negative (payment_plugin w).
Proof.
  induction 1 as [now uuids clock| | | | |].
  - cbn. unfold balances_not_negative. cbn.
    apply map_Forall_insert_2; [reflexivity|].
    apply map_Forall_insert_2; [reflexivity|].
    apply map_Forall_empty.
  - assumption.
  - rewrite list_favorite_services_plugin. assumption.
  - rewrite get_balance_plugin. assumption.
  - apply pay_service_not_negative. assumption.
  - rewrite get_latest_bill_plugin. assumption.
Qed.

(** C9: [pay_service] does not ask for a positive amount. In every state the
    process can reach, a negative amount passes the balance check for every
    registered account and service: the call succeeds with an empty error
    message and a receipt, and the balance goes up by the absolute value of
    the amount. The Decision Executor is what refuses such an amount. *)
Theorem pay_service_accepts_negative_amount :
  forall account_id service_id amount account service w,
    reachable w ->
    _accounts (payment_plugin w) !! account_id = Some account ->
    _services (payment_plugin w) !! service_id = Some service ->
    (amount <? 0)%float = true ->
    let call := pay_service account_id service_id amount w in
    (AccountInfo.balance account <? amount)%float = false
    /\ PaymentResult.error_message (fst call) = ""
    /\ is_receipt_id (PaymentResult.receipt_id (fst call)) = true
    /\ is_Some (_receipts (payment_plugin (snd call))
                  !! PaymentResult.receipt_id (fst call))
    /\ AccountInfo.balance <$> _accounts (payment_plugin (snd call)) !! account_id
       = Some (AccountInfo.balance account + abs amount)%float
    /\ (forall state conf,
           confirmation state = Some conf ->
           PaymentConfirmationResult.Confirmed conf = true ->
           PaymentConfirmationResult.Amount conf = amount ->
           handle_decision state = ([YieldOutput amount_message], inr tt)).
Proof.
  intros account_id service_id amount account service w Hreach Hacc Hsvc Hneg call.
  assert (Hlt : (AccountInfo.balance account <? amount)%float = false).
  { apply ltb_negative; [|exact Hneg].
    exact (reachable_not_negative w Hreach _ _ Hacc). }
  destruct (pay_service_success account_id service_id amount account service w
              Hacc Hlt Hsvc) as (Herr & Hrid & Haccs & _ & Hrec).
  fold call in Herr, Hrid, Haccs, Hrec.
  split; [exact Hlt|]. split; [exact Herr|].
  split; [rewrite Hrid; apply receipt_id_format|].
  split; [rewrite Hrid; exact Hrec|].
  split.
  - rewrite Haccs, lookup_insert_eq. cbn. rewrite (sub_negative _ _ Hneg). reflexivity.
  - intros state conf Hconf Hyes Hamount. unfold handle_decision.
    rewrite Hconf. cbn. rewrite Hyes, Hamount, (ltb_leb _ _ Hneg). reflexivity.
Qed.

(** C10, as the code has it: the balance check is a strict less-than, so a
    payment of exactly the balance passes it for every registered account and
    service and succeeds with an empty error message; it leaves the balance
    at exactly 0 when the balance is finite. *)
Theorem pay_service_whole_balance :
  forall account_id service_id account service w,
    _accounts (payment_plugin w) !! account_id = Some account ->
    _services (payment_plugin w) !! service_id = Some service ->
    let call := pay_service account_id service_id (AccountInfo.balance account) w in
    PaymentResult.error_message (fst call) = ""
    /\ is_receipt_id (PaymentResult.receipt_id (fst call)) = true
    /\ (is_finite (AccountInfo.balance account) = true ->
        AccountInfo.balance <$> _accounts (payment_plugin (snd call)) !! account_id
        = Some 0%float).
Proof.
  intros account_id service_id account service w Hacc Hsvc call.
  destruct (pay_service_success account_id service_id (AccountInfo.balance account)
              account service w Hacc (ltb_irrefl _) Hsvc) as (Herr & Hrid & Haccs & _ & _).
  fold call in Herr, Hrid, Haccs.
  split; [exact Herr|]. split; [rewrite Hrid; apply receipt_id_format|].
  intros Hfin. rewrite Haccs, lookup_insert_eq. cbn. rewrite (sub_diag _ Hfin). reflexivity.
Qed.

End PaymentProperties.

(** At start-up, 15.00 to SVC001 from acct-123: the first UUID drawn is 0. *)
Lemma pay_service_then_get_balance_witness :
  let paid := @pay_service sample_runtime "acct-123" "SVC001" 15.00%float sample_world in
  PaymentResult.error_message (fst paid) = ""
  /\ PaymentResult.receipt_id (fst paid) = "RCP-000000000000"
  /\ BalanceInfo.balance (fst (get_balance "acct-123" (snd paid)))
     = 5.50%float.
Proof.
  destruct (@pay_service_then_get_balance sample_runtime "SVC001"
              (ServiceInfo.mk "SVC001" "Luz del Sur" "Electricidad")
              (AccountInfo.mk "acct-123" 20.50%float "S/.") sample_world
              eq_refl eq_refl eq_refl) as (Herr & _ & _ & Hbal & _).
  split; [exact Herr|]. split; [reflexivity | exact Hbal].
Defined.

(** At start-up, paying -5.00 from acct-123 raises the balance to 25.50. *)
Lemma pay_service_accepts_negative_amount_witness :
  let call := @pay_service sample_runtime "acct-123" "SVC001" (-5.00)%float sample_world in
  (-5.00 <? 0)%float = true
  /\ PaymentResult.error_message (fst call) = ""
  /\ AccountInfo.balance <$> _accounts (payment_plugin (snd call)) !! "acct-123"
     = Some 25.50%float.
Proof.
  destruct (@pay_service_accepts_negative_amount sample_runtime "acct-123" "SVC001"
              (-5.00)%float (AccountInfo.mk "acct-123" 20.50%float "S/.")
              (ServiceInfo.mk "SVC001" "Luz del Sur" "Electricidad") sample_world
              (@reachable_initial sample_runtime _ _ _) eq_refl eq_refl eq_refl)
    as (_ & Herr & _ & _ & Hbal & _).
  split; [reflexivity|]. split; [exact Herr | exact Hbal].
Defined.

(** At start-up, paying the whole 20.50 of acct-123 leaves 0. *)
Lemma pay_service_whole_balance_witness :
  let call := @pay_service sample_runtime "acct-123" "SVC001" 20.50%float sample_world in
  PaymentResult.error_message (fst call) = ""
  /\ AccountInfo.balance <$> _accounts (payment_plugin (snd call)) !! "acct-123"
     = Some 0%float.
Proof.
  destruct (@pay_service_whole_balance sample_runtime "acct-123" "SVC001"
              (AccountInfo.mk "acct-123" 20.50%float "S/.")
              (ServiceInfo.mk "SVC001" "Luz del Sur" "Electricidad") sample_world
              eq_refl eq_refl) as (Herr & _ & Hzero).
  split; [exact Herr | exact (Hzero eq_refl)].
Defined.

(** C10 as stated fails on an infinite balance: paying exactly the balance
    succeeds and leaves NaN, not 0. *)
Lemma pay_service_whole_balance_counterexample :
  let call := @pay_service sample_runtime "acct-123" "SVC001" infinity overflowed_world in
  @reachable sample_runtime overflowed_world
  /\ AccountInfo.balance <$> _accounts (payment_plugin overflowed_world) !! "acct-123"
     = Some infinity
  /\ is_Some (_services (payment_plugin overflowed_world) !! "SVC001")
  /\ PaymentResult.error_message (fst call) = ""
  /\ AccountInfo.balance <$> _accounts (payment_plugin (snd call)) !! "acct-123"
     = Some nan
  /\ nan <> 0%float.
Proof.
  cbv zeta. split.
  { unfold overflowed_world. do 2 apply reachable_pay_service. apply reachable_initial. }
  split; [reflexivity|]. split; [vm_compute; eauto|].
  split; [reflexivity|]. split; [reflexivity|].
  intros E. apply (f_equal is_nan) in E. vm_compute in E. discriminate E.
Qed.

(** ** The workflow executors *)

Section ExecutorProperties.
Context `{PyRuntime}.

(** C4: with confirmation and balance populated, [handle_decision] performs
    exactly one action: the cancellation message when the payment is not
    confirmed; the amount message when it is confirmed with an amount at or
    below zero; the insufficient-funds message, built from both amounts and
    the currency, when the amount is positive and above the balance; and
    otherwise, with a positive amount within the balance, it forwards the
    state, which the only edge out of the decision step takes to the payment
    step, and yields nothing. *)
Theorem handle_decision_cases :
  forall state conf bal,
    confirmation state = Some conf ->
    balance state = Some bal ->
    let amount := PaymentConfirmationResult.Amount conf in
    let available := BalanceResult.Balance bal in
    (PaymentConfirmationResult.Confirmed conf = false ->
     handle_decision state = ([YieldOutput cancelled_message], inr tt))
    /\ (PaymentConfirmationResult.Confirmed conf = true ->
        (amount <=? 0)%float = true ->
        handle_decision state = ([YieldOutput amount_message], inr tt))
    /\ (PaymentConfirmationResult.Confirmed conf = true ->
        (0 <? amount)%float = true ->
        (available <? amount)%float = true ->
        handle_decision state
        = ([YieldOutput
              (insufficient_funds_message amount available (BalanceResult.Currency bal))],
           inr tt))
    /\ (PaymentConfirmationResult.Confirmed conf = true ->
        (0 <? amount)%float = true ->
        (amount <=? available)%float = true ->
        handle_decision state = ([SendMessage state], inr tt)
        /\ targets "decision" = ["pay"])
    /\ (exists action, handle_decision state = ([action], inr tt)).
Proof.
  intros state conf bal Hconf Hbal amount available.
  unfold handle_decision. rewrite Hconf, Hbal. cbn.
  fold amount available.
  destruct (PaymentConfirmationResult.Confirmed conf); cbn.
  - split; [discriminate|].
    split; [intros _ ->; reflexivity|].
    split; [intros _ Hpos Hgt; rewrite (ltb_not_ge _ _ Hpos), Hgt; reflexivity|].
    split; [intros _ Hpos Hle;
            rewrite (ltb_not_ge _ _ Hpos), (leb_not_gt _ _ Hle); split; reflexivity|].
    destruct (amount <=? 0)%float; [eauto|].
    destruct (available <? amount)%float; eauto.
  - split; [reflexivity|]. repeat (split; [discriminate|]). eauto.
Qed.

(** C5: each handler that needs fields filled in upstream tests them first
    and, when one is [None], yields its error output and does nothing else;
    no handler ever fails on an attribute of [None]. *)
Theorem executors_check_required_fields :
  (forall agent state,
      service_selection state = None \/ balance state = None ->
      handle_confirmation agent state
      = ([YieldOutput "Error: Missing required data"], inr tt))
  /\ (forall state,
         confirmation state = None ->
         handle_decision state = ([YieldOutput "Error: No confirmation data"], inr tt))
  /\ (forall agent state,
         confirmation state = None \/ service_selection state = None ->
         handle_payment agent state
         = ([YieldOutput "Error: Missing payment data"], inr tt))
  /\ (forall agent state msg,
         snd (handle_confirmation agent state) <> inl (AttributeError msg)
         /\ snd (handle_decision state) <> inl (AttributeError msg)
         /\ snd (handle_payment agent state) <> inl (AttributeError msg)).
Proof.
  split; [|split; [|split]].
  - intros agent state [Hnone|Hnone]; unfold handle_confirmation; rewrite Hnone;
      [|rewrite orb_true_r]; reflexivity.
  - intros state Hnone. unfold handle_decision. rewrite Hnone. reflexivity.
  - intros agent state [Hnone|Hnone]; unfold handle_payment; rewrite Hnone;
      [|rewrite orb_true_r]; reflexivity.
  - intros agent state msg. split; [|split].
    + unfold handle_confirmation.
      destruct (service_selection state) as [sel|], (balance state) as [bal|];
        cbn; try discriminate.
      unfold last_text, last_item.
      destruct (last (agent _ _)) as [m|]; cbn; [|discriminate].
      destruct (last (contents m)); cbn; discriminate.
    + unfold handle_decision.
      destruct (confirmation state) as [conf|]; cbn; [|discriminate].
      destruct (PaymentConfirmationResult.Confirmed conf); cbn; [|discriminate].
      destruct (_ <=? _)%float; [discriminate|].
      destruct (balance state) as [bal|]; [|discriminate].
      destruct (_ <? _)%float; discriminate.
    + unfold handle_payment.
      destruct (confirmation state) as [conf|], (service_selection state) as [sel|];
        cbn; try discriminate.
      unfold last_text, last_item.
      destruct (last (agent _ _)) as [m|]; cbn; [|discriminate].
      destruct (last (contents m)); cbn; discriminate.
Qed.

End ExecutorProperties.

(** 20.00 confirmed against 50.00 is forwarded. *)
Lemma handle_decision_cases_witness :
  @handle_decision sample_runtime sample_state = ([SendMessage sample_state], inr tt).
Proof.
  destruct (@handle_decision_cases sample_runtime sample_state
              (PaymentConfirmationResult.mk true true 20.00%float "SVC001" "")
              (BalanceResult.mk 50.00%float "S/." "") eq_refl eq_refl)
    as (_ & _ & _ & Hforward & _).
  exact (proj1 (Hforward eq_refl eq_refl eq_refl)).
Defined.

(** On a fresh state, where nothing is populated, each handler yields its
    error. *)
Lemma executors_check_required_fields_witness :
  handle_confirmation (fun _ _ => []) WorkflowState_init
  = ([YieldOutput "Error: Missing required data"], inr tt)
  /\ @handle_decision sample_runtime WorkflowState_init
     = ([YieldOutput "Error: No confirmation data"], inr tt)
  /\ handle_payment (fun _ _ => []) WorkflowState_init
     = ([YieldOutput "Error: Missing payment data"], inr tt).
Proof.
  destruct (@executors_check_required_fields sample_runtime) as (Hc & Hd & Hp & _).
  split; [apply Hc; left; reflexivity|].
  split; [apply Hd; reflexivity | apply Hp; left; reflexivity].
Defined.

(** ** The workflow runner *)

Section RunnerProperties.
Context `{PyRuntime}.

Lemma monitor_event_pending st w ev :
  pending_function_calls (fst (monitor_event st w ev))
  = pending_function_calls st ++ completed_calls [ev].
Proof.
  unfold completed_calls.
  destruct ev as [it|it| | | |usage|]; cbn; rewrite ?app_nil_r; try reflexivity.
  - destruct it as [| id role created_by | |]; cbn; try reflexivity.
    destruct (String.eqb role "assistant"); [|reflexivity].
    destruct (negb _); reflexivity.
  - destruct it as [| | call_id name arguments status |]; cbn;
      rewrite ?app_nil_r; try reflexivity.
    destruct (String.eqb status "completed"); cbn; rewrite ?app_nil_r; reflexivity.
  - destruct (negb _ && negb _); reflexivity.
  - destruct usage; reflexivity.
Qed.

Lemma completed_calls_cons ev events :
  completed_calls (ev :: events) = completed_calls [ev] ++ completed_calls events.
Proof. unfold completed_calls. cbn. destruct (completed_call ev); reflexivity. Qed.

Lemma monitor_events_pending events st w :
  pending_function_calls (fst (monitor_events events st w))
  = pending_function_calls st ++ completed_calls events.
Proof.
  revert st w. induction events as [|ev events IH]; intros st w.
  - cbn. rewrite app_nil_r. reflexivity.
  - rewrite completed_calls_cons. cbn [monitor_events].
    pose proof (monitor_event_pending st w ev) as Hev.
    destruct (monitor_event st w ev) as [st1 w1]. cbn [fst] in Hev.
    rewrite IH, Hev, app_assoc. reflexivity.
Qed.

(** What one call of the monitor returns and submits. *)
Lemma monitor_workflow_async_spec openai_client conversation_id workflow_name user_input
    tool_outputs history w :
  let request :=
    {| conversation := conversation_id; agent_reference := workflow_name;
       input := request_input_of user_input tool_outputs |} in
  let turn :=
    monitor_workflow_async openai_client conversation_id workflow_name user_input
      tool_outputs history w in
  fst (fst turn) = completed_calls (openai_client (history ++ [request]))
  /\ snd (fst turn) = history ++ [request].
Proof.
  cbv zeta. unfold monitor_workflow_async.
  match goal with |- context [monitor_events ?evs ?st ?w0] =>
    pose proof (monitor_events_pending evs st w0) as Hp;
    destruct (monitor_events evs st w0) as [st1 w1]
  end.
  cbn in Hp |- *. split; [exact Hp | reflexivity].
Qed.

(** C3: whatever the events of the turn, the monitor returns, in order of
    arrival, exactly the function calls of the item-done events whose status
    is "completed", each as its call_id, name and arguments. A function call
    that was only announced, or was done with another status, is not in the
    list, and the monitor returns all the same. *)
Theorem monitor_returns_completed_calls :
  forall openai_client conversation_id workflow_name user_input tool_outputs history w,
    let request :=
      {| conversation := conversation_id; agent_reference := workflow_name;
         input := request_input_of user_input tool_outputs |} in
    let events := openai_client (history ++ [request]) in
    let returned :=
      fst (fst (monitor_workflow_async openai_client conversation_id workflow_name
                  user_input tool_outputs history w)) in
    returned = completed_calls events
    /\ (forall call_id name arguments,
           FunctionCall.mk call_id name arguments ∈ returned
           <-> OutputItemDone (FunctionCallItem call_id name arguments "completed")
               ∈ events).
Proof.
  intros openai_client conversation_id workflow_name user_input tool_outputs history w
    request events returned.
  assert (Hret : returned = completed_calls events)
    by apply monitor_workflow_async_spec.
  split; [exact Hret|].
  intros call_id name arguments. rewrite Hret. unfold completed_calls.
  rewrite list_elem_of_omap. split.
  - intros (ev & Hin & Hev).
    destruct ev as [it|it| | | |usage|]; try discriminate Hev.
    destruct it as [| | c n a status |]; try discriminate Hev. cbn in Hev.
    destruct (String.eqb_spec status "completed") as [->|]; [|discriminate Hev].
    injection Hev as -> -> ->. exact Hin.
  - intros Hin. eexists. split; [exact Hin|]. reflexivity.
Qed.

End RunnerProperties.

Section DispatchProperties.
Context `{PyRuntime}.

Lemma execute_calls_ids function_map function_calls tool_outputs w outputs w' :
  execute_calls function_map function_calls tool_outputs w = (inr outputs, w') ->
  map FunctionCallOutput.call_id outputs
  = map FunctionCallOutput.call_id tool_outputs
    ++ map FunctionCall.call_id function_calls.
Proof.
  revert tool_outputs w.
  induction function_calls as [|func_call rest IH]; intros tool_outputs w; cbn.
  - intros [= <- <-]. rewrite app_nil_r. reflexivity.
  - destruct (invoke_function _ _ _ w) as [[e|result] w1]; [discriminate|].
    destruct (json_dumps result) as [out|]; [|discriminate].
    intros Hrest. rewrite (IH _ _ Hrest), map_app, <- app_assoc. reflexivity.
Qed.

(** One pass of the loop body, by what the monitor returned. *)
Lemma loop_body_spec function_map openai_client conversation_id workflow_name st history w :
  let turn :=
    monitor_workflow_async openai_client conversation_id workflow_name
      (current_input st) (tool_outputs st) history w in
  loop_body function_map openai_client conversation_id workflow_name st history w
  = match fst (fst turn) with
    | [] =>
        (inr {| is_complete := true; current_input := current_input st;
                tool_outputs := tool_outputs st |}, snd (fst turn), snd turn)
    | function_calls =>
        match execute_calls function_map function_calls [] (snd turn) with
        | (inl e, w) => (inl e, snd (fst turn), w)
        | (inr outputs, w) =>
            (inr {| is_complete := false; current_input := "";
                    tool_outputs := Some outputs |}, snd (fst turn), w)
        end
    end.
Proof.
  cbv zeta. unfold loop_body.
  destruct (monitor_workflow_async _ _ _ _ _ _ _) as [[function_calls history1] w1].
  cbn [fst snd]. destruct function_calls; reflexivity.
Qed.

(** C2: in each pass of the loop, when the monitor returns no call the loop
    ends and nothing more is submitted; when it returns calls, either a tool
    raises and nothing is submitted, or the batch that the next request
    submits has one output per returned call, with that call's call_id, in
    the same order, and nothing from the batch of an earlier pass. *)
Theorem dispatch_batch_matches_calls :
  forall function_map openai_client conversation_id workflow_name st history w
         function_calls history1 w1,
    monitor_workflow_async openai_client conversation_id workflow_name
      (current_input st) (tool_outputs st) history w = (function_calls, history1, w1) ->
    let pass :=
      loop_body function_map openai_client conversation_id workflow_name st history w in
    (function_calls = [] ->
     exists done,
       pass = (inr done, history1, w1)
       /\ forall fuel,
           while_not_complete (S fuel) function_map openai_client conversation_id
             workflow_name done history1 w1 = (Some Returned, history1, w1))
    /\ (function_calls <> [] ->
        (exists e w2, pass = (inl e, history1, w2))
        \/ (exists outputs w2,
               pass = (inr {| is_complete := false; current_input := "";
                              tool_outputs := Some outputs |}, history1, w2)
               /\ map FunctionCallOutput.call_id outputs
                  = map FunctionCall.call_id function_calls
               /\ snd (fst (monitor_workflow_async openai_client conversation_id
                              workflow_name "" (Some outputs) history1 w2))
                  = history1
                    ++ [{| conversation := conversation_id;
                           agent_reference := workflow_name;
                           input := InputOutputs outputs |}])).
Proof.
  intros function_map openai_client conversation_id workflow_name st history w
    function_calls history1 w1 Hturn pass.
  subst pass. rewrite loop_body_spec, Hturn. cbn [fst snd]. split.
  - intros ->. eexists. split; reflexivity.
  - intros Hcalls. destruct function_calls as [|func_call rest]; [congruence|].
    destruct (execute_calls function_map (func_call :: rest) [] w1)
      as [[e|outputs] w2] eqn:Hexec; [left; eauto|].
    right. exists outputs, w2. split; [reflexivity|].
    pose proof (execute_calls_ids _ _ _ _ _ _ Hexec) as Hids.
    split; [exact Hids|].
    rewrite (proj2 (monitor_workflow_async_spec _ _ _ _ _ _ _)).
    destruct outputs as [|o os]; [discriminate Hids | reflexivity].
Qed.

(** While every turn reports a call and every batch runs without raising,
    the loop is still running whatever fuel it is given. *)
Lemma while_not_complete_keeps_running function_map openai_client conversation_id
    workflow_name :
  (forall history, completed_calls (openai_client history) <> []) ->
  (forall history w, exists outputs w',
      execute_calls function_map (completed_calls (openai_client history)) [] w
      = (inr outputs, w')) ->
  forall fuel st history w,
    is_complete st = false ->
    fst (fst (while_not_complete fuel function_map openai_client conversation_id
                workflow_name st history w)) = None.
Proof.
  intros Hpending Hruns fuel.
  induction fuel as [|fuel IH]; intros st history w Hst; [reflexivity|].
  cbn [while_not_complete]. rewrite Hst, loop_body_spec.
  destruct (monitor_workflow_async_spec openai_client conversation_id workflow_name
              (current_input st) (tool_outputs st) history w) as [Hcalls Hhist].
  cbv zeta in Hcalls, Hhist. rewrite Hcalls, Hhist.
  set (history1 := history ++ _).
  destruct (completed_calls (openai_client history1)) as [|c cs] eqn:Hc;
    [destruct (Hpending history1 Hc)|].
  destruct (Hruns history1 (snd (monitor_workflow_async openai_client conversation_id
              workflow_name (current_input st) (tool_outputs st) history w)))
    as (outputs & w' & Hexec).
  rewrite Hc in Hexec. rewrite Hexec. apply IH. reflexivity.
Qed.

(** When the loop returns, the turn it last submitted reported no call. *)
Lemma while_not_complete_returned function_map openai_client conversation_id
    workflow_name fuel :
  forall st history w history' w',
    is_complete st = false ->
    while_not_complete fuel function_map openai_client conversation_id workflow_name
      st history w = (Some Returned, history', w') ->
    completed_calls (openai_client history') = [].
Proof.
  induction fuel as [|fuel IH]; intros st history w history' w' Hst; [discriminate|].
  cbn [while_not_complete]. rewrite Hst, loop_body_spec.
  destruct (monitor_workflow_async_spec openai_client conversation_id workflow_name
              (current_input st) (tool_outputs st) history w) as [Hcalls Hhist].
  cbv zeta in Hcalls, Hhist. rewrite Hcalls, Hhist.
  set (history1 := history ++ _).
  destruct (completed_calls (openai_client history1)) as [|c cs] eqn:Hc.
  - destruct fuel; [discriminate|]. cbn. intros [= <- _]. exact Hc.
  - destruct (execute_calls _ _ _ _) as [[e|outputs] w2]; [discriminate|].
    apply IH. reflexivity.
Qed.

(** C1, as the code has it: [execute_async] counts no turns and has no
    LoopBudgetExceeded. While every turn reports at least one pending call
    and the calls run without raising, the loop is still running after any
    number of passes; and when it does return, the last turn reported no
    pending call. *)
Theorem execute_async_has_no_turn_budget :
  forall function_map openai_client conversation_id workflow_name user_input history w,
    ((forall history, completed_calls (openai_client history) <> []) ->
     (forall history w, exists outputs w',
         execute_calls function_map (completed_calls (openai_client history)) [] w
         = (inr outputs, w')) ->
     forall fuel,
       fst (fst (execute_async fuel function_map openai_client conversation_id
                   workflow_name user_input history w)) = None)
    /\ (forall fuel history' w',
           execute_async fuel function_map openai_client conversation_id workflow_name
             user_input history w = (Some Returned, history', w') ->
           completed_calls (openai_client history') = []).
Proof.
  intros function_map openai_client conversation_id workflow_name user_input history w.
  split.
  - intros Hpending Hruns fuel. unfold execute_async.
    apply while_not_complete_keeps_running; auto.
  - intros fuel history' w'. unfold execute_async.
    apply while_not_complete_returned. reflexivity.
Qed.

End DispatchProperties.

(** *** The insistent remote side *)

Lemma insistent_remote_calls history :
  completed_calls (insistent_remote history) = [balance_call].
Proof. reflexivity. Qed.

Lemma function_map_main_get_balance :
  @function_map_main sample_runtime !! "get_balance"
  = Some (call_lambda ["account_id"] (@handle_tool_call sample_runtime "get_balance")).
Proof. reflexivity. Qed.

(** The balance request runs in every world: a known account or not,
    [get_balance] returns a record. *)
Lemma balance_call_runs w :
  exists outputs w',
    @execute_calls sample_runtime (@function_map_main sample_runtime) [balance_call] [] w
    = (inr outputs, w').
Proof.
  unfold balance_call.
  cbn [execute_calls FunctionCall.name FunctionCall.arguments FunctionCall.call_id].
  unfold invoke_function. rewrite function_map_main_get_balance.
  unfold call_lambda, handle_tool_call. cbn -[get_balance notify].
  unfold get_balance.
  destruct (_accounts _ !! "acct-123"); cbn -[notify _trace]; eauto.
Qed.

(** Against the insistent remote side the loop is still running after 100
    evaluations of its condition. *)
Lemma execute_async_has_no_turn_budget_witness :
  fst (fst (@execute_async sample_runtime 100 (@function_map_main sample_runtime)
              insistent_remote "conv_1" "service-payment-workflow" "hola" []
              sample_world)) = None.
Proof.
  apply (proj1 (@execute_async_has_no_turn_budget sample_runtime
                  (@function_map_main sample_runtime) insistent_remote "conv_1"
                  "service-payment-workflow" "hola" [] sample_world)).
  - intros history. rewrite insistent_remote_calls. discriminate.
  - intros history w. rewrite insistent_remote_calls. apply balance_call_runs.
Defined.

(** C1 as stated fails: against a remote side that reports a pending call in
    every turn, [execute_async] never ends, neither by returning nor by
    raising, whatever number of passes it is given. *)
Lemma execute_async_never_ends_counterexample :
  (forall history, completed_calls (insistent_remote history) = [balance_call])
  /\ ~ (exists fuel outcome,
           fst (fst (@execute_async sample_runtime fuel (@function_map_main sample_runtime)
                       insistent_remote "conv_1" "service-payment-workflow" "hola" []
                       sample_world)) = Some outcome).
Proof.
  split; [exact insistent_remote_calls|].
  intros (fuel & outcome & Hends). unfold execute_async in Hends.
  rewrite (@while_not_complete_keeps_running sample_runtime) in Hends;
    [discriminate Hends| | |reflexivity].
  - intros history. rewrite insistent_remote_calls. discriminate.
  - intros history w. rewrite insistent_remote_calls. apply balance_call_runs.
Qed.

(** The first pass against the insistent remote side answers call_1. *)
Lemma dispatch_batch_matches_calls_witness :
  fst (fst first_turn) = [balance_call]
  /\ exists outputs w2,
      @loop_body sample_runtime (@function_map_main sample_runtime) insistent_remote
        "conv_1" "service-payment-workflow"
        {| is_complete := false; current_input := "hola"; tool_outputs := None |}
        [] sample_world
      = (inr {| is_complete := false; current_input := "";
                tool_outputs := Some outputs |}, snd (fst first_turn), w2)
      /\ map FunctionCallOutput.call_id outputs = ["call_1"].
Proof.
  split; [reflexivity|].
  destruct (@dispatch_batch_matches_calls sample_runtime
              (@function_map_main sample_runtime) insistent_remote "conv_1"
              "service-payment-workflow"
              {| is_complete := false; current_input := "hola"; tool_outputs := None |}
              [] sample_world [balance_call] (snd (fst first_turn)) (snd first_turn)
              eq_refl) as [_ Hcalls].
  destruct (Hcalls ltac:(discriminate)) as [(e & w2 & Hraise)|(outputs & w2 & Hpass & Hids & _)].
  - vm_compute in Hraise. discriminate Hraise.
  - exists outputs, w2. split; [exact Hpass | exact Hids].
Defined.

(** ** Serialization of tool results *)

Lemma ServiceInfo_round_trips (x : ServiceInfo.t) : round_trips x (model_dump x).
Proof. destruct x. split; reflexivity. Qed.

Lemma BalanceInfo_round_trips (x : BalanceInfo.t) : round_trips x (model_dump x).
Proof. destruct x. split; reflexivity. Qed.

Lemma PaymentResult_round_trips (x : PaymentResult.t) : round_trips x (model_dump x).
Proof. destruct x. split; reflexivity. Qed.

Lemma BillInfo_round_trips (x : BillInfo.t) : round_trips x (model_dump x).
Proof. destruct x. split; reflexivity. Qed.

Lemma dump_items_instances {T} `{BaseModel T} (xs : list T) :
  dump_items (map instance xs) = inr (map (fun x => PyDict (model_dump x)) xs).
Proof.
  induction xs as [|x xs IH]; [reflexivity|].
  cbn [map dump_items]. rewrite IH. reflexivity.
Qed.

Section SerializationProperties.
Context `{PyRuntime}.

Lemma handle_tool_call_result tool_name arguments w raw w1 :
  handle_tool_call tool_name arguments w = (inr raw, w1) -> tool_result raw.
Proof.
  unfold handle_tool_call, tool_result.
  repeat match goal with
         | |- context [String.eqb tool_name ?s] => destruct (String.eqb tool_name s)
         | |- context [arg_str ?k arguments] => destruct (arg_str k arguments)
         | |- context [arg_float ?k arguments] => destruct (arg_float k arguments)
         end;
    try discriminate.
  - destruct (list_favorite_services _ _) as [r w']. intros [= <- _]. eauto 6.
  - destruct (get_balance _ _) as [r w']. intros [= <- _]. eauto.
  - destruct (pay_service _ _ _ _) as [r w']. intros [= <- _]. eauto.
  - destruct (get_latest_bill _ _ _) as [r w']. intros [= <- _]. eauto 6.
Qed.

Lemma call_lambda_result params tool_name arguments w raw w1 :
  call_lambda params (handle_tool_call tool_name) arguments w = (inr raw, w1) ->
  tool_result raw.
Proof.
  unfold call_lambda. destruct (forallb _ _); [|discriminate].
  destruct (mapM _ _) as [bound|]; [|discriminate].
  apply handle_tool_call_result.
Qed.

Lemma function_map_main_result function_name function_impl arguments w raw w1 :
  function_map_main !! function_name = Some function_impl ->
  function_impl arguments w = (inr raw, w1) ->
  tool_result raw.
Proof.
  unfold function_map_main. intros Hfm.
  repeat (apply lookup_insert_Some in Hfm as [[_ <-]|[_ Hfm]];
          [apply call_lambda_result|]).
  rewrite lookup_empty in Hfm. discriminate Hfm.
Qed.

(** C8: when a tool of the function map returns a record, [invoke_function]
    returns its plain map, and when it returns a list of records, the list of
    their plain maps; each map has exactly the fields its class declares, and
    building the class from the map gives the record back. The arguments may
    come structured or as text to parse. *)
Theorem invoke_function_round_trip :
  forall function_name function_impl arguments kwargs w raw w1,
    function_map_main !! function_name = Some function_impl ->
    (arguments = PyDict kwargs
     \/ exists s, arguments = PyScalar (SStr s) /\ json_loads s = Some (PyDict kwargs)) ->
    function_impl kwargs
      (notify ("INPUT - Executing Function: " +:+ function_name) "magenta" w)
    = (inr raw, w1) ->
    exists converted,
      invoke_function function_map_main function_name arguments w = (inr converted, w1)
      /\ (record_of BalanceInfo.t raw converted
          \/ record_of PaymentResult.t raw converted
          \/ record_of BillInfo.t raw converted
          \/ records_of ServiceInfo.t raw converted).
Proof.
  intros function_name function_impl arguments kwargs w raw w1 Hfm Hargs Himpl.
  unfold invoke_function. rewrite Hfm.
  assert (Hparsed :
            match arguments with
            | PyScalar (SStr s) =>
                match json_loads s with
                | Some v => inr v
                | None => inl JSONDecodeError
                end
            | _ => inr arguments
            end = inr (PyDict kwargs) :> exn + pyobj).
  { destruct Hargs as [->|(s & -> & ->)]; reflexivity. }
  rewrite Hparsed, Himpl.
  destruct (function_map_main_result _ _ _ _ _ _ Hfm Himpl)
    as [[x ->]|[[x ->]|[[x ->]|[xs ->]]]].
  - eexists. split; [reflexivity|].
    left. exists x. auto using BalanceInfo_round_trips.
  - eexists. split; [reflexivity|].
    right. left. exists x. auto using PaymentResult_round_trips.
  - eexists. split; [reflexivity|].
    right. right. left. exists x. auto using BillInfo_round_trips.
  - exists (PyList (map (fun x => PyDict (model_dump x)) xs)). split.
    + destruct xs as [|x xs]; [reflexivity|].
      change (map instance (x :: xs)) with (instance x :: map instance xs).
      unfold instance at 1.
      change (PyModel class_name (model_dump x) :: map instance xs)
        with (map instance (x :: xs)).
      rewrite dump_items_instances. reflexivity.
    + right. right. right. exists xs. split; [reflexivity|]. split; [reflexivity|].
      apply Forall_forall. intros x _. apply ServiceInfo_round_trips.
Qed.

End SerializationProperties.

(** [get_balance] for acct-123 at start-up, through [invoke_function]. *)
Lemma invoke_function_round_trip_witness :
  exists converted,
    fst (@invoke_function sample_runtime (@function_map_main sample_runtime)
           "get_balance" (PyDict [("account_id", SStr "acct-123")]) sample_world)
    = inr converted
    /\ record_of BalanceInfo.t (instance (BalanceInfo.mk 20.50%float "S/." ""))
         converted.
Proof.
  destruct (@invoke_function_round_trip sample_runtime "get_balance"
              (call_lambda ["account_id"] (@handle_tool_call sample_runtime "get_balance"))
              (PyDict [("account_id", SStr "acct-123")])
              [("account_id", SStr "acct-123")] sample_world
              (instance (BalanceInfo.mk 20.50%float "S/." "")) _
              eq_refl (or_introl eq_refl) eq_refl)
    as (converted & Hinvoke & [Hrecord|[(x & Hx & _)|[(x & Hx & _)|(xs & Hxs & _)]]]);
    try discriminate.
  exists converted. split; [rewrite Hinvoke; reflexivity | exact Hrecord].
Defined.

(** * Further properties of the code *)

(** ** The plugin's data *)

Section PluginData.
Context `{PyRuntime}.

Lemma PaymentPlugin_init_consistent now : plugin_consistent now (PaymentPlugin_init now).
Proof.
  split; [repeat split|]. split; [split|].
  - intros k. cbn. rewrite !lookup_insert_is_Some, lookup_empty.
    split.
    + intros [ <- |[_ [ <- |[_ [a Hn]]]]]; [auto..|discriminate Hn].
    + intros [-> | ->];
        [left; reflexivity|right; split; [discriminate|left; reflexivity]].
  - intros k account. cbn. rewrite !lookup_insert_Some, lookup_empty.
    intros [[ <- <- ]|[_ [[ <- <- ]|[_ Hn]]]]; [split; reflexivity..|discriminate Hn].
  - intros k receipt. cbn. rewrite lookup_empty. discriminate.
Qed.

Lemma pay_service_consistent now account_id service_id amount w :
  plugin_consistent now (payment_plugin w) ->
  plugin_consistent now (payment_plugin (snd (pay_service account_id service_id amount w))).
Proof.
  intros Hinv. enter_method pay_service.
  destruct (_accounts (payment_plugin w) !! account_id) as [account|] eqn:Hacc;
    [|exact Hinv].
  destruct (AccountInfo.balance account <? amount)%float; [exact Hinv|].
  destruct (_services (payment_plugin w) !! service_id) as [service|] eqn:Hsvc;
    [|exact Hinv].
  destruct Hinv as (Hstatic & [Hkeys Hacct] & Hrec). cbn.
  destruct (Hacct _ _ Hacc) as [Hid Hcur].
  split; [exact Hstatic|]. split; [split|].
  - intros k. cbn. rewrite lookup_insert_is_Some, <- Hkeys.
    split; [intros [ <- |[_ Hk]]; eauto | destruct (decide (account_id = k)); auto].
  - intros k a. cbn. rewrite lookup_insert_Some.
    intros [[ <- <- ]|[_ Hk]]; [cbn; auto | eauto].
  - intros k receipt. cbn. rewrite lookup_insert_Some.
    intros [[ <- <- ]|[_ Hk]].
    + cbn. split; [reflexivity|]. split; [apply receipt_id_format|].
      split; [rewrite lookup_insert_eq; eauto|]. split; [eauto|]. exact Hcur.
    + destruct (Hrec _ _ Hk) as (? & ? & Ha & ? & ?).
      repeat (split; [assumption|]). split; [|auto].
      rewrite lookup_insert_is_Some.
      destruct (decide (account_id = ReceiptInfo.account_id receipt)); auto.
Qed.

Lemma reachable_consistent w :
  reachable w -> exists now, plugin_consistent now (payment_plugin w).
Proof.
  induction 1 as [now uuids clock| | | |? ? ? ? ? IH|].
  - exists now. apply PaymentPlugin_init_consistent.
  - assumption.
  - rewrite list_favorite_services_plugin. assumption.
  - rewrite get_balance_plugin. assumption.
  - destruct IH as [now Hinv]. exists now. apply pay_service_consistent, Hinv.
  - rewrite get_latest_bill_plugin. assumption.
Qed.

(** X1: whatever has been called, the favourites, services and bills are
    those built at start-up, the accounts are still exactly acct-123 and
    acct-124, and each account is stored under its own id with currency
    S/.: payments change balances and nothing else about an account. *)
Theorem reachable_plugin_data_fixed :
  forall w,
    reachable w ->
    exists now,
      static_data now (payment_plugin w) /\ accounts_consistent (payment_plugin w).
Proof.
  intros w Hreach. destruct (reachable_consistent w Hreach) as (now & Hs & Ha & _).
  eauto.
Qed.

(** X2: every receipt the plugin holds is stored under its own receipt id,
    which has the RCP- format, names a registered account and a registered
    service with that service's name, and is in S/. *)
Theorem reachable_receipts_consistent :
  forall w, reachable w -> receipts_consistent (payment_plugin w).
Proof.
  intros w Hreach. destruct (reachable_consistent w Hreach) as (now & _ & _ & Hr).
  exact Hr.
Qed.

(** X3: a successful payment touches one balance and adds one receipt. Every
    other account, and the paying account's id and currency, stay as they
    were, as do favourites, services and bills; the receipt stored under the
    returned id records the account, service, amount and currency of the
    call; one UUID and one clock reading are consumed. *)
Theorem pay_service_frame :
  forall account_id service_id amount account service w,
    _accounts (payment_plugin w) !! account_id = Some account ->
    (AccountInfo.balance account <? amount)%float = false ->
    _services (payment_plugin w) !! service_id = Some service ->
    let call := pay_service account_id service_id amount w in
    let p := payment_plugin w in
    let p' := payment_plugin (snd call) in
    (forall other, other <> account_id -> _accounts p' !! other = _accounts p !! other)
    /\ (exists account',
           _accounts p' !! account_id = Some account'
           /\ AccountInfo.id account' = AccountInfo.id account
           /\ AccountInfo.currency account' = AccountInfo.currency account)
    /\ _customer_favorites p' = _customer_favorites p
    /\ _services p' = _services p
    /\ _latest_bills p' = _latest_bills p
    /\ (forall other,
           other <> PaymentResult.receipt_id (fst call) ->
           _receipts p' !! other = _receipts p !! other)
    /\ _receipts p' !! PaymentResult.receipt_id (fst call)
       = Some (ReceiptInfo.mk (PaymentResult.receipt_id (fst call)) account_id service_id
                 (ServiceInfo.name service) amount (AccountInfo.currency account)
                 (isoformat (utcnow_source w (utcnow_reads w))))
    /\ uuid4_reads (snd call) = S (uuid4_reads w)
    /\ utcnow_reads (snd call) = S (utcnow_reads w).
Proof.
  intros account_id service_id amount account service w Hacc Hlt Hsvc.
  enter_method pay_service. rewrite Hacc, Hlt, Hsvc. cbn.
  split; [intros other Hne; apply lookup_insert_ne; congruence|].
  split; [rewrite lookup_insert_eq; eauto|].
  repeat (split; [reflexivity|]).
  split; [intros other Hne; apply lookup_insert_ne; congruence|].
  split; [apply lookup_insert_eq|]. split; reflexivity.
Qed.

(** X4: paying and then asking: after a successful payment [get_balance]
    reports, with no error, the old balance minus the amount and the
    account's currency. *)
Theorem get_balance_after_pay_service :
  forall account_id service_id amount account service w,
    _accounts (payment_plugin w) !! account_id = Some account ->
    (AccountInfo.balance account <? amount)%float = false ->
    _services (payment_plugin w) !! service_id = Some service ->
    fst (get_balance account_id (snd (pay_service account_id service_id amount w)))
    = BalanceInfo.mk (AccountInfo.balance account - amount)%float
        (AccountInfo.currency account) "".
Proof.
  intros account_id service_id amount account service w Hacc Hlt Hsvc.
  destruct (pay_service_success account_id service_id amount account service w
              Hacc Hlt Hsvc) as (_ & _ & Haccs & _).
  enter_method get_balance. rewrite Haccs, lookup_insert_eq. reflexivity.
Qed.

(** X5: no favourite is lost: for every customer, [list_favorite_services]
    returns the services with exactly the customer's favourite ids, in
    order, and the empty list for a customer without favourites. *)
Theorem list_favorite_services_ids :
  forall customer_id w,
    reachable w ->
    map ServiceInfo.id (fst (list_favorite_services customer_id w))
    = default [] (_customer_favorites (payment_plugin w) !! customer_id).
Proof.
  intros customer_id w Hreach.
  destruct (reachable_consistent w Hreach) as (now & (Hfav & Hsvc & _) & _).
  enter_method list_favorite_services. rewrite Hfav, Hsvc.
  destruct (_customer_favorites (PaymentPlugin_init now) !! customer_id)
    as [favorite_ids|] eqn:Hc; [|reflexivity].
  cbn in Hc. rewrite !lookup_insert_Some, lookup_empty in Hc.
  destruct Hc as [[_ <- ]|[_ [[_ <- ]|[_ [[_ <- ]|[_ Hn]]]]]];
    [reflexivity..|discriminate Hn].
Qed.

Lemma joined_key_has_colon a b : has_colon (a +:+ ":" +:+ b) = true.
Proof.
  induction a as [|c a IH]; [reflexivity|].
  change (has_colon (String c a +:+ ":" +:+ b))
    with (Ascii.eqb c ":" || has_colon (a +:+ ":" +:+ b)).
  rewrite IH. apply orb_true_r.
Qed.

(** Colon-free ids can be read back from the key they were joined into. *)
Lemma joined_key_unambiguous k v c s :
  has_colon k = false -> has_colon v = false ->
  c +:+ ":" +:+ s = k +:+ ":" +:+ v -> c = k /\ s = v.
Proof.
  intros Hk Hv. revert c. induction k as [|b k IH]; intros c.
  - destruct c as [|a c]; cbn; intros E.
    + injection E as E. auto.
    + injection E as Ea E. change (c +:+ ":" +:+ s = v) in E.
      rewrite <- E, joined_key_has_colon in Hv. discriminate Hv.
  - cbn in Hk. apply orb_false_elim in Hk as [Hb Hk].
    destruct c as [|a c]; cbn; intros E; injection E as E1 E2.
    + subst b. discriminate Hb.
    + subst a. destruct (IH Hk c E2) as [-> ->]. auto.
Qed.

Lemma initial_bills_well_keyed now :
  map_Forall bill_well_keyed (_latest_bills (PaymentPlugin_init now)).
Proof.
  cbn. repeat (apply map_Forall_insert_2; [repeat split; reflexivity|]).
  apply map_Forall_empty.
Qed.

(** X6: [get_latest_bill] returns an empty error message exactly when a bill
    is stored for the customer and service asked for, and then the bill
    returned is that customer's bill for that service: the colon-joined key
    confuses no two pairs of ids. *)
Theorem get_latest_bill_found_iff :
  forall customer_id service_id w,
    reachable w ->
    let bill := fst (get_latest_bill customer_id service_id w) in
    let stored :=
      _latest_bills (payment_plugin w) !! (customer_id +:+ ":" +:+ service_id) in
    (BillInfo.error_message bill = "" <-> is_Some stored)
    /\ (BillInfo.error_message bill = "" ->
        stored = Some bill
        /\ BillInfo.customer_id bill = customer_id
        /\ BillInfo.service_id bill = service_id).
Proof.
  intros customer_id service_id w Hreach.
  destruct (reachable_consistent w Hreach) as (now & (_ & _ & Hbills) & _).
  enter_method get_latest_bill. rewrite Hbills.
  destruct (_latest_bills (PaymentPlugin_init now) !! _) as [bill|] eqn:Hkey.
  - destruct (initial_bills_well_keyed now _ _ Hkey) as (Hjoin & Hc & Hs & Herr).
    cbn. split; [split; eauto|]. intros _.
    destruct (joined_key_unambiguous _ _ _ _ Hc Hs Hjoin) as [-> ->]. auto.
  - assert (Hnone : forall m : string, ~ is_Some (@None BillInfo.t))
      by (intros _ [b Hb]; discriminate Hb).
    destruct (_services (payment_plugin w) !! service_id) as [service|]; cbn;
      (split; [split; [discriminate|intros Hs; destruct (Hnone "" Hs)]|discriminate]).
Qed.

End PluginData.

(** After one payment at start-up the accounts are still the two of
    [__init__]. *)
Lemma reachable_plugin_data_fixed_witness :
  let w := snd (@pay_service sample_runtime "acct-123" "SVC001" 15.00%float sample_world) in
  exists now,
    @static_data sample_runtime now (payment_plugin w)
    /\ accounts_consistent (payment_plugin w).
Proof.
  intros w. apply (@reachable_plugin_data_fixed sample_runtime w).
  apply reachable_pay_service, reachable_initial.
Defined.

(** The receipt of the first payment at start-up. *)
Lemma reachable_receipts_consistent_witness :
  let w := snd (@pay_service sample_runtime "acct-123" "SVC001" 15.00%float sample_world) in
  exists receipt,
    _receipts (payment_plugin w) !! "RCP-000000000000" = Some receipt
    /\ ReceiptInfo.receipt_id receipt = "RCP-000000000000"
    /\ ReceiptInfo.currency receipt = "S/.".
Proof.
  intros w.
  assert (Hreach : @reachable sample_runtime w)
    by apply reachable_pay_service, reachable_initial.
  eexists. split; [reflexivity|].
  destruct (@reachable_receipts_consistent sample_runtime w Hreach "RCP-000000000000" _
              eq_refl) as (Hid & _ & _ & _ & Hcur).
  split; [exact Hid | exact Hcur].
Defined.

(** At start-up, 15.00 to SVC001 from acct-123 leaves acct-124 alone and
    draws one UUID. *)
Lemma pay_service_frame_witness :
  let call := @pay_service sample_runtime "acct-123" "SVC001" 15.00%float sample_world in
  _accounts (payment_plugin (snd call)) !! "acct-124"
  = Some (AccountInfo.mk "acct-124" 250.00%float "S/.")
  /\ uuid4_reads (snd call) = 1.
Proof.
  destruct (@pay_service_frame sample_runtime "acct-123" "SVC001" 15.00%float
              (AccountInfo.mk "acct-123" 20.50%float "S/.")
              (ServiceInfo.mk "SVC001" "Luz del Sur" "Electricidad") sample_world
              eq_refl eq_refl eq_refl) as (Hothers & _ & _ & _ & _ & _ & _ & Huuid & _).
  split; [|exact Huuid].
  rewrite (Hothers "acct-124"); [reflexivity | discriminate].
Defined.

(** At start-up, 50.00 to SVC002 from acct-124 leaves 200.00. *)
Lemma get_balance_after_pay_service_witness :
  fst (get_balance "acct-124"
         (snd (@pay_service sample_runtime "acct-124" "SVC002" 50.00%float sample_world)))
  = BalanceInfo.mk 200.00%float "S/." "".
Proof.
  exact (@get_balance_after_pay_service sample_runtime "acct-124" "SVC002" 50.00%float
           (AccountInfo.mk "acct-124" 250.00%float "S/.")
           (ServiceInfo.mk "SVC002" "Sedapal" "Agua") sample_world
           eq_refl eq_refl eq_refl).
Defined.

(** The favourites of cust-2 at start-up. *)
Lemma list_favorite_services_ids_witness :
  map ServiceInfo.id (fst (list_favorite_services "cust-2" sample_world))
  = ["SVC003"; "SVC005"].
Proof.
  exact (@list_favorite_services_ids sample_runtime "cust-2" sample_world
           (@reachable_initial sample_runtime _ _ _)).
Defined.

(** The bill of cust-1 for SVC001 at start-up. *)
Lemma get_latest_bill_found_iff_witness :
  let bill := fst (get_latest_bill "cust-1" "SVC001" sample_world) in
  BillInfo.bill_id bill = "BILL-001"
  /\ BillInfo.customer_id bill = "cust-1"
  /\ BillInfo.service_id bill = "SVC001".
Proof.
  intros bill.
  destruct (@get_latest_bill_found_iff sample_runtime "cust-1" "SVC001" sample_world
              (@reachable_initial sample_runtime _ _ _)) as [_ Hfound].
  destruct (Hfound eq_refl) as (_ & Hcustomer & Hservice).
  split; [reflexivity|]. split; [exact Hcustomer | exact Hservice].
Defined.

(** ** Overdrafts *)

Section Overdrafts.
Context `{PyRuntime}.

(** X7: no sequence of calls overdraws an account. In every state the
    process can reach, whatever amounts were paid and however binary64
    subtraction rounded, the balance [get_balance] reports for any account
    id does not compare below zero, and neither does any stored balance. *)
Theorem no_account_is_overdrawn :
  forall w account_id,
    reachable w ->
    (BalanceInfo.balance (fst (get_balance account_id w)) <? 0)%float = false
    /\ forall account,
        _accounts (payment_plugin w) !! account_id = Some account ->
        (AccountInfo.balance account <? 0)%float = false.
Proof.
  intros w account_id Hreach.
  pose proof (reachable_not_negative w Hreach) as Hinv.
  split; [|intros account Hacc; exact (Hinv _ _ Hacc)].
  enter_method get_balance.
  destruct (_accounts (payment_plugin w) !! account_id) as [account|] eqn:Hacc.
  - exact (Hinv _ _ Hacc).
  - reflexivity.
Qed.

End Overdrafts.

(** After paying the whole 20.50 of acct-123, and then failing to pay
    0.01 more. *)
Lemma no_account_is_overdrawn_witness :
  let w :=
    snd (@pay_service sample_runtime "acct-123" "SVC001" 0.01%float
           (snd (@pay_service sample_runtime "acct-123" "SVC001" 20.50%float
                   sample_world))) in
  BalanceInfo.balance (fst (get_balance "acct-123" w)) = 0%float
  /\ (BalanceInfo.balance (fst (get_balance "acct-123" w)) <? 0)%float = false.
Proof.
  intros w. split; [reflexivity|].
  assert (Hreach : @reachable sample_runtime w)
    by apply reachable_pay_service, reachable_pay_service, reachable_initial.
  exact (proj1 (@no_account_is_overdrawn sample_runtime w "acct-123" Hreach)).
Defined.

(** ** The runner and the process *)

Lemma only_printed_refl w : only_printed w w.
Proof. repeat split. exists []. rewrite app_nil_r. reflexivity. Qed.

Lemma only_printed_trans w1 w2 w3 :
  only_printed w1 w2 -> only_printed w2 w3 -> only_printed w1 w3.
Proof.
  intros (Hp & Hu & Ht & Hur & Htr & out1 & Ho1) (Hp' & Hu' & Ht' & Hur' & Htr' & out2 & Ho2).
  repeat split; try congruence.
  exists (out1 ++ out2). rewrite Ho2, Ho1, app_assoc. reflexivity.
Qed.

Lemma only_printed_write s w : only_printed w (write s w).
Proof. repeat split. exists [s]. reflexivity. Qed.

Lemma only_printed_notify message color w : only_printed w (notify message color w).
Proof. apply only_printed_write. Qed.

(** Close a goal whose second world is the first after some printing. *)
Ltac printed :=
  cbn -[notify write];
  repeat first
    [ apply only_printed_refl
    | apply only_printed_write
    | apply only_printed_notify
    | eapply only_printed_trans;
      [|first [apply only_printed_write | apply only_printed_notify]] ].

Section RunnerFrame.
Context `{PyRuntime}.

Lemma monitor_event_only_prints st w ev : only_printed w (snd (monitor_event st w ev)).
Proof.
  destruct ev as [it|it| | | |usage|]; cbn -[notify write].
  - destruct it as [| id role created_by | |]; try solve [printed].
    destruct (String.eqb role "assistant"); [|printed].
    destruct (negb _); [|printed].
    destruct (has_streamed st); printed.
  - destruct it as [| | call_id name arguments status |]; try solve [printed].
    destruct (String.eqb status "completed"); printed.
  - printed.
  - destruct (negb _ && negb _); printed.
  - printed.
  - destruct (has_streamed st), usage; printed.
  - printed.
Qed.

Lemma monitor_events_only_print events st w :
  only_printed w (snd (monitor_events events st w)).
Proof.
  revert st w. induction events as [|ev events IH]; intros st w; cbn [monitor_events].
  - apply only_printed_refl.
  - pose proof (monitor_event_only_prints st w ev) as Hev.
    destruct (monitor_event st w ev) as [st1 w1]. cbn [snd] in Hev.
    eapply only_printed_trans; [exact Hev | apply IH].
Qed.

Lemma monitor_workflow_async_only_prints openai_client conversation_id workflow_name
    user_input tool_outputs history w :
  only_printed w
    (snd (monitor_workflow_async openai_client conversation_id workflow_name
            user_input tool_outputs history w)).
Proof.
  unfold monitor_workflow_async.
  match goal with |- context [monitor_events ?evs ?st ?w0] =>
    pose proof (monitor_events_only_print evs st w0) as Hp;
    destruct (monitor_events evs st w0) as [st1 w1]
  end.
  exact Hp.
Qed.

(** X8: the monitor only prints. Whatever the remote side streams, one
    monitor pass leaves the plugin and the host's UUID and clock sources
    untouched and only appends to standard output. *)
Theorem monitor_only_prints :
  forall openai_client conversation_id workflow_name user_input tool_outputs history w,
    only_printed w
      (snd (monitor_workflow_async openai_client conversation_id workflow_name
              user_input tool_outputs history w)).
Proof. intros. apply monitor_workflow_async_only_prints. Qed.

Lemma _trace_only_prints function_name w : only_printed w (_trace function_name w).
Proof. apply only_printed_write. Qed.

Lemma handle_tool_call_only_prints tool_name arguments w :
  tool_name <> "pay_service" ->
  only_printed w (snd (handle_tool_call tool_name arguments w)).
Proof.
  intros Hname. unfold handle_tool_call.
  destruct (String.eqb_spec tool_name "pay_service") as [E|_]; [contradiction|].
  repeat match goal with
         | |- context [String.eqb tool_name ?s] => destruct (String.eqb tool_name s)
         | |- context [arg_str ?k arguments] => destruct (arg_str k arguments)
         end;
    try apply only_printed_refl.
  - unfold list_favorite_services. cbv zeta.
    destruct (_ !! _); apply _trace_only_prints.
  - unfold get_balance. cbv zeta. destruct (_ !! _); apply _trace_only_prints.
  - unfold get_latest_bill. cbv zeta.
    destruct (_latest_bills _ !! _); [apply _trace_only_prints|].
    destruct (_services _ !! _); apply _trace_only_prints.
Qed.

Lemma call_lambda_only_prints params tool_name arguments w :
  tool_name <> "pay_service" ->
  only_printed w (snd (call_lambda params (handle_tool_call tool_name) arguments w)).
Proof.
  intros Hname. unfold call_lambda.
  destruct (forallb _ _); [|apply only_printed_refl].
  destruct (mapM _ _); [|apply only_printed_refl].
  apply handle_tool_call_only_prints, Hname.
Qed.

Lemma function_map_main_only_prints function_name function_impl arguments w :
  function_map_main !! function_name = Some function_impl ->
  function_name <> "pay_service" ->
  only_printed w (snd (function_impl arguments w)).
Proof.
  unfold function_map_main. intros Hfm Hname.
  repeat (apply lookup_insert_Some in Hfm as [[E <- ]|[_ Hfm]];
          [first [apply call_lambda_only_prints; discriminate | congruence]|]).
  rewrite lookup_empty in Hfm. discriminate Hfm.
Qed.

Lemma invoke_function_only_prints function_name arguments w :
  function_name <> "pay_service" ->
  only_printed w (snd (invoke_function function_map_main function_name arguments w)).
Proof.
  intros Hname. unfold invoke_function.
  set (w0 := notify _ _ w). assert (H0 : only_printed w w0) by apply only_printed_notify.
  destruct (function_map_main !! function_name) as [function_impl|] eqn:Hfm;
    [|exact H0].
  match goal with |- context [match ?p with inl _ => _ | inr _ => _ end] =>
    destruct p as [e|[| kwargs | | |]]; try exact H0
  end.
  pose proof (function_map_main_only_prints _ _ kwargs w0 Hfm Hname) as Himpl.
  destruct (function_impl kwargs w0) as [[e|result] w1]. cbn [snd] in Himpl.
  - eapply only_printed_trans; eauto.
  - cbn [snd] in Himpl. assert (H1 : only_printed w w1) by (eapply only_printed_trans; eauto).
    destruct result as [| |[|[] rest]| |]; try exact H1.
    destruct (dump_items _); exact H1.
Qed.

Lemma execute_calls_only_print function_calls tool_outputs w :
  Forall (fun c => FunctionCall.name c <> "pay_service") function_calls ->
  only_printed w (snd (execute_calls function_map_main function_calls tool_outputs w)).
Proof.
  intros Hcalls. revert tool_outputs w.
  induction Hcalls as [|c rest Hc _ IH]; intros tool_outputs w; cbn [execute_calls].
  - apply only_printed_refl.
  - pose proof (invoke_function_only_prints _ (FunctionCall.arguments c) w Hc) as Hinv.
    destruct (invoke_function _ _ _ w) as [[e|result] w1]; cbn [snd] in Hinv;
      [exact Hinv|].
    destruct (json_dumps result); [|exact Hinv].
    eapply only_printed_trans; [exact Hinv | apply IH].
Qed.

Lemma while_not_complete_only_prints openai_client conversation_id workflow_name :
  (forall history,
      Forall (fun c => FunctionCall.name c <> "pay_service")
        (completed_calls (openai_client history))) ->
  forall fuel st history w,
    only_printed w
      (snd (while_not_complete fuel function_map_main openai_client conversation_id
              workflow_name st history w)).
Proof.
  intros Hcalls fuel.
  induction fuel as [|fuel IH]; intros st history w; cbn [while_not_complete];
    [apply only_printed_refl|].
  destruct (is_complete st); [apply only_printed_refl|].
  rewrite loop_body_spec.
  destruct (monitor_workflow_async_spec openai_client conversation_id workflow_name
              (current_input st) (tool_outputs st) history w) as [Hturn _].
  cbv zeta in Hturn.
  pose proof (monitor_workflow_async_only_prints openai_client conversation_id
                workflow_name (current_input st) (tool_outputs st) history w) as Hmon.
  destruct (monitor_workflow_async _ _ _ _ _ _ _) as [[function_calls history1] w1].
  cbn [fst snd] in *.
  destruct function_calls as [|c cs].
  - eapply only_printed_trans; [exact Hmon | apply IH].
  - pose proof (execute_calls_only_print (c :: cs) [] w1) as Hexec.
    rewrite Hturn in Hexec. specialize (Hexec (Hcalls _)). rewrite <- Hturn in Hexec.
    destruct (execute_calls _ _ _ w1) as [[e|outputs] w2]; cbn [snd] in Hexec.
    + eapply only_printed_trans; eauto.
    + eapply only_printed_trans; [eapply only_printed_trans; eauto | apply IH].
Qed.

(** X9: a run in which the remote side never asks for [pay_service] changes
    nothing but standard output: whatever else it asks for, and however the
    run ends, the plugin holds the same balances and receipts afterwards and
    no UUID or clock reading has been consumed. *)
Theorem execute_async_without_payment_only_prints :
  forall fuel openai_client conversation_id workflow_name user_input history w,
    (forall history,
        Forall (fun c => FunctionCall.name c <> "pay_service")
          (completed_calls (openai_client history))) ->
    only_printed w
      (snd (execute_async fuel function_map_main openai_client conversation_id
              workflow_name user_input history w)).
Proof.
  intros fuel openai_client conversation_id workflow_name user_input history w Hcalls.
  unfold execute_async. apply while_not_complete_only_prints, Hcalls.
Qed.

End RunnerFrame.

(** Three passes against the remote side that only ever asks for the
    balance. *)
Lemma execute_async_without_payment_only_prints_witness :
  only_printed sample_world
    (snd (@execute_async sample_runtime 3 (@function_map_main sample_runtime)
            insistent_remote "conv_1" "service-payment-workflow" "hola" []
            sample_world)).
Proof.
  apply (@execute_async_without_payment_only_prints sample_runtime).
  intros history. rewrite insistent_remote_calls.
  constructor; [discriminate | constructor].
Defined.

(** ** Failures and shapes in the dispatch loop *)

Section DispatchFailures.
Context `{PyRuntime}.

(** X10: running a batch of calls is running a first part and then the
    rest from where the first part left the process and the outputs; when
    the first part raises, the rest is never run. *)
Theorem execute_calls_app :
  forall function_map calls1 calls2 tool_outputs w,
    execute_calls function_map (calls1 ++ calls2) tool_outputs w
    = match execute_calls function_map calls1 tool_outputs w with
      | (inl e, w1) => (inl e, w1)
      | (inr outputs, w1) => execute_calls function_map calls2 outputs w1
      end.
Proof.
  intros function_map calls1 calls2. induction calls1 as [|c calls1 IH];
    intros tool_outputs w; [reflexivity|].
  cbn [app execute_calls].
  destruct (invoke_function _ _ _ w) as [[e|result] w1]; [reflexivity|].
  destruct (json_dumps result); [apply IH | reflexivity].
Qed.

(** X11: a function that is not in the function map aborts the run. When
    the first completed call of the first turn names an unknown function,
    [execute_async] raises ValueError after that single request, no tool has
    run, and the process has only printed. *)
Theorem execute_async_unknown_function :
  forall fuel function_map openai_client conversation_id workflow_name user_input
         history w call rest,
    let request :=
      {| conversation := conversation_id; agent_reference := workflow_name;
         input := InputText user_input |} in
    completed_calls (openai_client (history ++ [request])) = call :: rest ->
    function_map !! FunctionCall.name call = None ->
    exists w',
      execute_async (S fuel) function_map openai_client conversation_id workflow_name
        user_input history w
      = (Some (Raised (ValueError ("Function " +:+ FunctionCall.name call
                                   +:+ " not found in function map"))),
         history ++ [request], w')
      /\ only_printed w w'.
Proof.
  intros fuel function_map openai_client conversation_id workflow_name user_input
    history w call rest request Hcalls Hfm.
  unfold execute_async. cbn [while_not_complete is_complete]. rewrite loop_body_spec.
  destruct (monitor_workflow_async_spec openai_client conversation_id workflow_name
              user_input None history w) as [Hturn Hhist].
  pose proof (monitor_workflow_async_only_prints openai_client conversation_id
                workflow_name user_input None history w) as Hmon.
  cbv zeta in Hturn, Hhist. cbn [current_input tool_outputs request_input_of] in *.
  fold request in Hturn, Hhist. rewrite Hturn, Hhist, Hcalls.
  cbn [execute_calls]. unfold invoke_function. rewrite Hfm.
  eexists. split; [reflexivity|].
  eapply only_printed_trans; [exact Hmon | apply only_printed_notify].
Qed.

Lemma dump_items_models items :
  forallb is_model items = true -> exists ds, dump_items items = inr ds.
Proof.
  induction items as [|o items IH]; cbn; [eauto|].
  destruct o; cbn; try discriminate.
  intros Hall. destruct (IH Hall) as [ds ->]. eauto.
Qed.

Lemma dump_items_not_models items :
  forallb is_model items = false ->
  dump_items items = inl (AttributeError "object has no attribute 'model_dump'").
Proof.
  induction items as [|o items IH]; cbn; [discriminate|].
  destruct o; cbn; try reflexivity.
  intros Hall. rewrite (IH Hall). reflexivity.
Qed.

(** X12: a list result is converted only as a whole. When a tool returns a
    list whose first item is a record, [invoke_function] returns a list
    exactly when every item is a record, and raises AttributeError
    otherwise, after the tool has run; a list whose first item is not a
    record, and the empty list, are returned as they are. *)
Theorem invoke_function_list_result :
  forall function_map function_name function_impl kwargs w items w1,
    function_map !! function_name = Some function_impl ->
    function_impl kwargs
      (notify ("INPUT - Executing Function: " +:+ function_name) "magenta" w)
    = (inr (PyList items), w1) ->
    let call := invoke_function function_map function_name (PyDict kwargs) w in
    snd call = w1
    /\ match items with
       | [] => fst call = inr (PyList [])
       | first :: _ =>
           if is_model first then
             if forallb is_model items
             then exists ds, fst call = inr (PyList ds) /\ length ds = length items
             else fst call = inl (AttributeError "object has no attribute 'model_dump'")
           else fst call = inr (PyList items)
       end.
Proof.
  intros function_map function_name function_impl kwargs w items w1 Hfm Himpl.
  cbv zeta. unfold invoke_function. rewrite Hfm, Himpl.
  destruct items as [|first rest]; [split; reflexivity|].
  destruct first as [c f| | | |]; cbn [is_model]; try (split; reflexivity).
  destruct (forallb is_model (PyModel c f :: rest)) eqn:Hall.
  - destruct (dump_items_models _ Hall) as [ds Hds]. rewrite Hds.
    split; [reflexivity|]. exists ds. split; [reflexivity|].
    clear -Hds. revert ds Hds. generalize (PyModel c f :: rest) as items.
    induction items as [|o items IH]; cbn; intros ds.
    + intros [= <- ]. reflexivity.
    + destruct (dump_item o); [discriminate|].
      destruct (dump_items items) as [|ds']; [discriminate|].
      intros [= <- ]. cbn. rewrite (IH ds' eq_refl). reflexivity.
  - rewrite (dump_items_not_models _ Hall). split; reflexivity.
Qed.

Lemma while_not_complete_later_requests function_map openai_client conversation_id
    workflow_name fuel :
  forall st history w,
    (is_complete st = true \/ exists o os, tool_outputs st = Some (o :: os)) ->
    exists requests,
      snd (fst (while_not_complete fuel function_map openai_client conversation_id
                  workflow_name st history w)) = history ++ requests
      /\ Forall (later_request conversation_id workflow_name) requests
      /\ length requests <= fuel.
Proof.
  induction fuel as [|fuel IH]; intros st history w Hst; cbn [while_not_complete].
  { exists []. rewrite app_nil_r. auto. }
  destruct (is_complete st) eqn:Hdone.
  { exists []. rewrite app_nil_r. cbn. split; [reflexivity|]. split; [constructor|lia]. }
  destruct Hst as [Hst|(o & os & Hst)]; [discriminate Hst|].
  rewrite loop_body_spec.
  destruct (monitor_workflow_async_spec openai_client conversation_id workflow_name
              (current_input st) (tool_outputs st) history w) as [_ Hhist].
  cbv zeta in Hhist. rewrite Hhist, Hst. cbn [request_input_of].
  set (request := {| conversation := conversation_id; agent_reference := workflow_name;
                     input := InputOutputs (o :: os) |}).
  assert (Hreq : later_request conversation_id workflow_name request)
    by (repeat split; eauto).
  destruct (fst (fst (monitor_workflow_async _ _ _ _ _ _ _))) as [|c cs].
  - destruct (IH {| is_complete := true; current_input := current_input st;
                    tool_outputs := Some (o :: os) |} (history ++ [request])
                (snd (monitor_workflow_async openai_client conversation_id workflow_name
                        (current_input st) (Some (o :: os)) history w)) (or_introl eq_refl))
      as (requests & Hh & Hl & Hn).
    exists (request :: requests). rewrite Hh, <- app_assoc.
    split; [reflexivity|]. split; [constructor; assumption | cbn; lia].
  - destruct (execute_calls function_map (c :: cs) [] _) as [[e|outputs] w2] eqn:Hexec.
    + exists [request]. cbn. split; [reflexivity|]. split; [auto | lia].
    + pose proof (execute_calls_ids _ _ _ _ _ _ Hexec) as Hids.
      destruct outputs as [|o' os']; [discriminate Hids|].
      destruct (IH {| is_complete := false; current_input := "";
                      tool_outputs := Some (o' :: os') |} (history ++ [request]) w2
                  (or_intror (ex_intro _ o' (ex_intro _ os' eq_refl))))
        as (requests & Hh & Hl & Hn).
      exists (request :: requests). rewrite Hh, <- app_assoc.
      split; [reflexivity|]. split; [constructor; assumption | cbn; lia].
Qed.

(** X13: what one [execute_async] call submits. The requests it adds to the
    conversation are the user's text first and then only non-empty batches
    of tool outputs, all under the given conversation id and workflow name,
    at most one per pass of the loop. *)
Theorem execute_async_requests :
  forall fuel function_map openai_client conversation_id workflow_name user_input
         history w,
    exists requests,
      snd (fst (execute_async fuel function_map openai_client conversation_id
                  workflow_name user_input history w)) = history ++ requests
      /\ run_requests conversation_id workflow_name user_input requests
      /\ length requests <= fuel.
Proof.
  intros fuel function_map openai_client conversation_id workflow_name user_input
    history w.
  unfold execute_async. destruct fuel as [|fuel]; cbn [while_not_complete is_complete].
  { exists []. rewrite app_nil_r. cbn. auto. }
  rewrite loop_body_spec.
  destruct (monitor_workflow_async_spec openai_client conversation_id workflow_name
              user_input None history w) as [_ Hhist].
  cbv zeta in Hhist. cbn [current_input tool_outputs request_input_of] in *.
  rewrite Hhist.
  set (request := {| conversation := conversation_id; agent_reference := workflow_name;
                     input := InputText user_input |}).
  assert (Hfinish :
            forall st w1,
              (is_complete st = true \/ exists o os, tool_outputs st = Some (o :: os)) ->
              exists requests,
                snd (fst (while_not_complete fuel function_map openai_client
                            conversation_id workflow_name st (history ++ [request]) w1))
                = history ++ requests
                /\ run_requests conversation_id workflow_name user_input requests
                /\ length requests <= S fuel).
  { intros st w1 Hst.
    destruct (while_not_complete_later_requests function_map openai_client
                conversation_id workflow_name fuel st (history ++ [request]) w1 Hst)
      as (requests & Hh & Hl & Hn).
    exists (request :: requests). rewrite Hh, <- app_assoc.
    split; [reflexivity|]. split; [split; [reflexivity | exact Hl] | cbn; lia]. }
  destruct (fst (fst (monitor_workflow_async _ _ _ _ _ _ _))) as [|c cs].
  - apply Hfinish. left. reflexivity.
  - destruct (execute_calls function_map (c :: cs) [] _) as [[e|outputs] w2] eqn:Hexec.
    + exists [request]. cbn. split; [reflexivity|]. split; [auto | lia].
    + pose proof (execute_calls_ids _ _ _ _ _ _ Hexec) as Hids.
      destruct outputs as [|o' os']; [discriminate Hids|].
      apply Hfinish. right. eauto.
Qed.

End DispatchFailures.

(** A call to refund_payment, which the function map does not have. *)
Lemma execute_async_unknown_function_witness :
  exists w',
    @execute_async sample_runtime 5 (@function_map_main sample_runtime)
      unknown_call_remote "conv_1" "service-payment-workflow" "hola" [] sample_world
    = (Some (Raised (ValueError "Function refund_payment not found in function map")),
       [{| conversation := "conv_1"; agent_reference := "service-payment-workflow";
           input := InputText "hola" |}], w')
    /\ only_printed sample_world w'.
Proof.
  exact (@execute_async_unknown_function sample_runtime 4
           (@function_map_main sample_runtime) unknown_call_remote "conv_1"
           "service-payment-workflow" "hola" [] sample_world
           (FunctionCall.mk "call_7" "refund_payment" (PyDict [])) [] eq_refl eq_refl).
Defined.

(** The two favourites of cust-2, through [invoke_function]. *)
Lemma invoke_function_list_result_witness :
  exists ds,
    fst (@invoke_function sample_runtime (@function_map_main sample_runtime)
           "list_favorite_services" (PyDict [("customer_id", SStr "cust-2")])
           sample_world) = inr (PyList ds)
    /\ length ds = 2.
Proof.
  exact (proj2 (@invoke_function_list_result sample_runtime
                  (@function_map_main sample_runtime) "list_favorite_services"
                  (call_lambda ["customer_id"]
                     (@handle_tool_call sample_runtime "list_favorite_services"))
                  [("customer_id", SStr "cust-2")] sample_world
                  (map instance
                     [ServiceInfo.mk "SVC003" "Claro Móvil" "Telefonía";
                      ServiceInfo.mk "SVC005" "Movistar Hogar" "Internet"]) _
                  eq_refl eq_refl)).
Defined.

(** ** The function map of main.py *)

Section FunctionMap.
Context `{PyRuntime}.

Lemma bound_one p arguments bound :
  mapM (fun p => pair p <$> dict_get p arguments) [p] = Some bound ->
  exists v, bound = [(p, v)].
Proof.
  cbn. destruct (dict_get p arguments) as [v|]; cbn; [|discriminate].
  intros [= <- ]. eauto.
Qed.

Lemma handle_tool_call_bound tool_name params arguments bound w :
  (tool_name, params) ∈
    [("list_favorite_services", ["customer_id"]); ("get_balance", ["account_id"]);
     ("pay_service", ["account_id"; "service_id"; "amount"]);
     ("get_latest_bill", ["customer_id"; "service_id"])] ->
  mapM (fun p => pair p <$> dict_get p arguments) params = Some bound ->
  forall text,
    fst (handle_tool_call tool_name bound w) <> inl (ValueError text)
    /\ fst (handle_tool_call tool_name bound w) <> inl (KeyError text).
Proof.
  intros Hin Hbound text.
  repeat (apply elem_of_cons in Hin as [[= -> -> ]|Hin]); [..|inversion Hin];
    cbn in Hbound;
    repeat match type of Hbound with
           | context [dict_get ?k arguments] =>
               destruct (dict_get k arguments) as [[]|]; cbn in Hbound;
               try discriminate Hbound
           end;
    injection Hbound as <-; unfold handle_tool_call; cbn;
    repeat match goal with
           | |- context [let '(r, w') := ?c in _] => destruct c
           end;
    split; discriminate.
Qed.

(** X14: the function map registers exactly the four tools, and each
    lambda hands [handle_tool_call] a tool name it knows and every argument
    it reads: calling a registered tool never raises the ValueError of an
    unknown tool nor a KeyError, whatever the arguments. *)
Theorem function_map_main_tools :
  forall function_name,
    (is_Some (function_map_main !! function_name)
     <-> function_name ∈ ["list_favorite_services"; "get_balance"; "pay_service";
                          "get_latest_bill"])
    /\ forall function_impl arguments w text,
        function_map_main !! function_name = Some function_impl ->
        fst (function_impl arguments w) <> inl (ValueError text)
        /\ fst (function_impl arguments w) <> inl (KeyError text).
Proof.
  intros function_name. split.
  - unfold function_map_main. rewrite !lookup_insert_is_Some, lookup_empty.
    rewrite !elem_of_cons, elem_of_nil. split.
    + intros [ <- |[_ [ <- |[_ [ <- |[_ [ <- |[_ [x Hx]]]]]]]]]; auto; discriminate Hx.
    + intros [-> |[-> |[-> |[-> |[]]]]];
        repeat first [left; reflexivity | right; split; [discriminate|]].
  - intros function_impl arguments w text Hfm. unfold function_map_main in Hfm.
    repeat (apply lookup_insert_Some in Hfm as [[_ <- ]|[_ Hfm]];
            [unfold call_lambda;
             destruct (forallb _ arguments); [|split; discriminate];
             destruct (mapM _ _) as [bound|] eqn:Hbound; [|split; discriminate];
             refine (handle_tool_call_bound _ _ arguments bound w _ Hbound text);
             rewrite !elem_of_cons; repeat first [left; reflexivity | right]|]).
    rewrite lookup_empty in Hfm. discriminate Hfm.
Qed.

End FunctionMap.

(** [get_balance] called with no argument raises, but not a KeyError. *)
Lemma function_map_main_tools_witness :
  fst (call_lambda ["account_id"] (@handle_tool_call sample_runtime "get_balance")
         [] sample_world) <> inl (KeyError "account_id").
Proof.
  exact (proj2 (proj2 (@function_map_main_tools sample_runtime "get_balance")
                  (call_lambda ["account_id"] (@handle_tool_call sample_runtime "get_balance"))
                  [] sample_world "account_id" eq_refl)).
Defined.

(** ** Tool calls that fail *)

Section FailedCalls.
Context `{PyRuntime}.




End FailedCalls.


(** ** The executors, one after another *)

Section ExecutorChains.
Context `{PyRuntime}.

(** Case analysis of a handler run up to the agent's answer. *)
Ltac handler_cases :=
  repeat match goal with
         | |- context [is_none (?f ?state)] => destruct (f state); cbn
         | |- context [last_text ?r] =>
             unfold last_text, last_item; destruct (last r) as [?m|]; cbn
         | |- context [last (contents ?m)] => destruct (last (contents m)); cbn
         | |- context [PaymentConfirmationResult.Confirmed ?c] =>
             destruct (PaymentConfirmationResult.Confirmed c); cbn
         | |- context [(?a <=? ?b)%float] => destruct (a <=? b)%float; cbn
         | |- context [(?a <? ?b)%float] => destruct (a <? b)%float; cbn
         | |- context [match balance ?s with _ => _ end] => destruct (balance s); cbn
         end.

Ltac acts_once_cases :=
  unfold forwarded, yielded; cbn; handler_cases;
  repeat split; cbn; try lia; try discriminate; auto.

Lemma handle_start_acts_once agent state message :
  acts_once (handle_start agent state message)
  /\ yielded (handle_start agent state message) = [].
Proof. unfold acts_once, handle_start. acts_once_cases. Qed.

Lemma handle_balance_check_acts_once agent state :
  acts_once (handle_balance_check agent state)
  /\ yielded (handle_balance_check agent state) = [].
Proof. unfold acts_once, handle_balance_check. acts_once_cases. Qed.

Lemma handle_confirmation_acts_once agent state :
  acts_once (handle_confirmation agent state).
Proof. unfold acts_once, handle_confirmation. acts_once_cases. Qed.

Lemma handle_decision_acts_once state : acts_once (handle_decision state).
Proof.
  unfold acts_once, handle_decision.
  destruct (confirmation state); acts_once_cases.
Qed.

Lemma handle_payment_acts_once agent state :
  acts_once (handle_payment agent state)
  /\ forwarded (handle_payment agent state) = [].
Proof. unfold acts_once, handle_payment. acts_once_cases. Qed.

(** X16: every handler acts on the workflow at most once per call: it
    forwards the state or yields an output, never both and never twice, and
    not at all when it raises. The first two steps never yield, and the
    payment step never forwards. *)
Theorem handlers_act_at_most_once :
  forall agent state message,
    (acts_once (handle_start agent state message)
     /\ yielded (handle_start agent state message) = [])
    /\ (acts_once (handle_balance_check agent state)
        /\ yielded (handle_balance_check agent state) = [])
    /\ acts_once (handle_confirmation agent state)
    /\ acts_once (handle_decision state)
    /\ (acts_once (handle_payment agent state)
        /\ forwarded (handle_payment agent state) = []).
Proof.
  intros agent state message.
  split; [apply handle_start_acts_once|].
  split; [apply handle_balance_check_acts_once|].
  split; [apply handle_confirmation_acts_once|].
  split; [apply handle_decision_acts_once | apply handle_payment_acts_once].
Qed.

Lemma handle_start_forwarded agent self_state message s :
  s ∈ forwarded (handle_start agent self_state message) ->
  service_selection s = service_selection self_state
  /\ balance s = balance self_state
  /\ user_message s = message.
Proof.
  unfold handle_start, forwarded. cbn. handler_cases;
    rewrite ?elem_of_cons, ?elem_of_nil; intros Hin;
    repeat destruct Hin as [Hin|Hin]; try contradiction; subst; auto.
Qed.

Lemma handle_balance_check_forwarded agent state s :
  s ∈ forwarded (handle_balance_check agent state) -> s = state.
Proof.
  unfold handle_balance_check, forwarded. cbn. handler_cases;
    rewrite ?elem_of_cons, ?elem_of_nil; intros Hin;
    repeat destruct Hin as [Hin|Hin]; try contradiction; subst; auto.
Qed.

(** X17: as the code stands, with the parsing of the agents' answers left
    out, the first two steps pass the state on without populating it, so a
    run that starts from a state lacking the service selection or the
    balance always ends at the confirmation step, which yields
    "Error: Missing required data": whatever the agents answer, the
    decision and payment steps are never reached. The user's message is
    recorded on the way. *)
Theorem stubbed_steps_end_at_confirmation :
  forall selection_agent balance_agent confirmation_agent self_state message s1 s2,
    service_selection self_state = None \/ balance self_state = None ->
    s1 ∈ forwarded (handle_start selection_agent self_state message) ->
    s2 ∈ forwarded (handle_balance_check balance_agent s1) ->
    user_message s2 = message
    /\ handle_confirmation confirmation_agent s2
       = ([YieldOutput "Error: Missing required data"], inr tt)
    /\ targets "select_service" = ["get_balance"]
    /\ targets "get_balance" = ["confirm_payment"].
Proof.
  intros selection_agent balance_agent confirmation_agent self_state message s1 s2
    Hnone Hs1 Hs2.
  apply handle_balance_check_forwarded in Hs2 as ->.
  apply handle_start_forwarded in Hs1 as (Hsel & Hbal & Hmsg).
  split; [exact Hmsg|]. split; [|split; reflexivity].
  unfold handle_confirmation. rewrite Hsel, Hbal.
  destruct Hnone as [-> | ->]; [reflexivity|].
  destruct (service_selection self_state); reflexivity.
Qed.

Lemma handle_decision_forwarded state :
  forwarded (handle_decision state)
  = match confirmation state with
    | Some conf =>
        if PaymentConfirmationResult.Confirmed conf
           && negb (PaymentConfirmationResult.Amount conf <=? 0)%float
           && match balance state with
              | Some bal =>
                  negb (BalanceResult.Balance bal
                        <? PaymentConfirmationResult.Amount conf)%float
              | None => true
              end
        then [state] else []
    | None => []
    end.
Proof.
  unfold handle_decision, forwarded.
  destruct (confirmation state) as [conf|]; cbn; [|reflexivity].
  handler_cases; reflexivity.
Qed.

(** X18: the decision step forwards exactly the confirmed payments whose
    amount is not at or below zero and, when the balance is populated, not
    above it; what it forwards is the state it received. A missing balance
    skips the funds check, and an amount that is not a number passes both
    comparisons. *)
Theorem handle_decision_forwards_iff :
  forall state,
    (forwarded (handle_decision state) = [state]
     \/ forwarded (handle_decision state) = [])
    /\ (forwarded (handle_decision state) = [state]
        <-> exists conf,
            confirmation state = Some conf
            /\ PaymentConfirmationResult.Confirmed conf = true
            /\ (PaymentConfirmationResult.Amount conf <=? 0)%float = false
            /\ forall bal,
                balance state = Some bal ->
                (BalanceResult.Balance bal
                 <? PaymentConfirmationResult.Amount conf)%float = false).
Proof.
  intros state. rewrite handle_decision_forwarded.
  destruct (confirmation state) as [conf|];
    [|split; [auto|split; [discriminate|intros (c & Hc & _); discriminate Hc]]].
  match goal with |- context [if ?c then _ else _] => set (b := c) end.
  assert (Hb : b = true
               <-> exists conf',
                   Some conf = Some conf'
                   /\ PaymentConfirmationResult.Confirmed conf' = true
                   /\ (PaymentConfirmationResult.Amount conf' <=? 0)%float = false
                   /\ forall bal,
                       balance state = Some bal ->
                       (BalanceResult.Balance bal
                        <? PaymentConfirmationResult.Amount conf')%float = false).
  { subst b. rewrite !andb_true_iff, negb_true_iff. split.
    - intros [[Hc Ha] Hbal]. exists conf. repeat split; auto.
      intros bal Hsome. rewrite Hsome in Hbal. apply negb_true_iff in Hbal. exact Hbal.
    - intros (c & [= <- ] & Hc & Ha & Hbal). repeat split; auto.
      destruct (balance state) as [bal|]; [|reflexivity].
      rewrite (Hbal _ eq_refl). reflexivity. }
  destruct b; (split; [auto|]); rewrite <- Hb; split; auto; discriminate.
Qed.

(** X19: the payment agent is only asked to pay what the decision step let
    through. For a state the decision step forwarded, every agent call of
    the payment step carries that state's account id and the confirmed
    amount, which is not at or below zero and, when the balance is
    populated, not above it. *)
Theorem payment_arguments_were_accepted :
  forall agent state s arguments,
    s ∈ forwarded (handle_decision state) ->
    arguments ∈ agent_arguments (handle_payment agent s) ->
    exists conf,
      confirmation state = Some conf
      /\ dict_get "AccountId" arguments = Some (SStr (account_id state))
      /\ dict_get "Amount" arguments = Some (SFloat (PaymentConfirmationResult.Amount conf))
      /\ (PaymentConfirmationResult.Amount conf <=? 0)%float = false
      /\ forall bal,
          balance state = Some bal ->
          (BalanceResult.Balance bal <? PaymentConfirmationResult.Amount conf)%float
          = false.
Proof.
  intros agent state s arguments Hs Hargs.
  rewrite handle_decision_forwarded in Hs.
  destruct (confirmation state) as [conf|] eqn:Hconf; [|inversion Hs].
  destruct (PaymentConfirmationResult.Confirmed conf); cbn in Hs; [|inversion Hs].
  destruct (PaymentConfirmationResult.Amount conf <=? 0)%float eqn:Hle; cbn in Hs;
    [inversion Hs|].
  assert (Hbal : forall bal, balance state = Some bal ->
                   (BalanceResult.Balance bal
                    <? PaymentConfirmationResult.Amount conf)%float = false).
  { intros bal Hb. rewrite Hb in Hs.
    destruct (_ <? _)%float; [inversion Hs | reflexivity]. }
  assert (s = state) as ->.
  { destruct (balance state) as [bal|]; [destruct (_ <? _)%float|]; cbn in Hs;
      rewrite ?elem_of_cons, ?elem_of_nil in Hs; intuition. }
  exists conf. split; [reflexivity|].
  revert Hargs. unfold handle_payment, agent_arguments. rewrite Hconf. cbn.
  destruct (service_selection state) as [sel|]; cbn;
    [|rewrite elem_of_nil; contradiction].
  handler_cases; rewrite ?elem_of_cons, ?elem_of_nil; intros Hin;
    repeat destruct Hin as [Hin|Hin]; try contradiction; subst; cbn; auto.
Qed.

End ExecutorChains.

(** From the fresh state of [main], with agents that answer. *)
Lemma stubbed_steps_end_at_confirmation_witness :
  let s :=
    {| user_message := "pagar luz"; customer_id := "cust-1"; account_id := "acct-123";
       service_selection := None; balance := None; confirmation := None;
       payment := None |} in
  forwarded (handle_start answering_agent WorkflowState_init "pagar luz") = [s]
  /\ forwarded (handle_balance_check answering_agent s) = [s]
  /\ handle_confirmation answering_agent s
     = ([YieldOutput "Error: Missing required data"], inr tt).
Proof.
  intros s. split; [reflexivity|]. split; [reflexivity|].
  destruct (stubbed_steps_end_at_confirmation answering_agent answering_agent
              answering_agent WorkflowState_init "pagar luz" s s (or_introl eq_refl))
    as (_ & Hconfirmation & _).
  - change (s ∈ [s]). constructor.
  - change (s ∈ [s]). constructor.
  - exact Hconfirmation.
Defined.

(** The confirmed 20.00 against 50.00 is what the payment agent is asked to
    pay. *)
Lemma payment_arguments_were_accepted_witness :
  let arguments :=
    [("AccountId", SStr "acct-123"); ("ServiceId", SStr "SVC001");
     ("Amount", SFloat 20.00%float)] in
  agent_arguments (handle_payment answering_agent sample_state) = [arguments]
  /\ exists conf,
      confirmation sample_state = Some conf
      /\ dict_get "Amount" arguments
         = Some (SFloat (PaymentConfirmationResult.Amount conf))
      /\ (PaymentConfirmationResult.Amount conf <=? 0)%float = false.
Proof.
  intros arguments. split; [reflexivity|].
  destruct (@payment_arguments_were_accepted sample_runtime answering_agent sample_state
              sample_state arguments) as (conf & Hconf & _ & Hamount & Hpositive & _).
  - change (sample_state ∈ [sample_state]). constructor.
  - change (arguments ∈ [arguments]). constructor.
  - exists conf. split; [exact Hconf|]. split; [exact Hamount | exact Hpositive].
Defined.

(** ** The agent factory *)

Section FactoryProperties.
Context {Schema Tool JsonSchema : Type}.
Variable model_json_schema : Schema -> JsonSchema.
Variable yaml_files : string -> exn + Config.


Lemma collect_tools_spec (self : AgentFactory Schema Tool) tools agent_tools :
  match collect_tools self tools agent_tools with
  | inr collected =>
      Forall (fun t => is_Some (tools_registry self !! t)) tools
      /\ collected = agent_tools ++ omap (fun t => tools_registry self !! t) tools
  | inl e =>
      exists before missing after,
        tools = before ++ missing :: after
        /\ Forall (fun t => is_Some (tools_registry self !! t)) before
        /\ tools_registry self !! missing = None
        /\ e = ValueError ("Tool '" +:+ missing +:+ "' not found in tools registry")
  end.
Proof.
  revert agent_tools. induction tools as [|t tools IH]; intros agent_tools; cbn.
  - rewrite app_nil_r. auto.
  - destruct (tools_registry self !! t) as [found|] eqn:Ht.
    + specialize (IH (agent_tools ++ [found])).
      destruct (collect_tools self tools (agent_tools ++ [found])) as [e|collected].
      * destruct IH as (before & missing & after & -> & Hb & Hm & ->).
        exists (t :: before), missing, after. repeat split; auto.
      * destruct IH as [Hall ->]. split; [constructor; [rewrite Ht; eauto|exact Hall]|].
        rewrite <- app_assoc. reflexivity.
    + exists [], t, tools. repeat split; auto.
Qed.

(** X20: [create_agent] checks everything before it creates anything. It
    creates the agent exactly when the output schema is registered and every
    tool named is registered; then it makes one remote call, for a
    definition whose tools are the registered tools in the order named (or
    none), and prints one line. Otherwise it raises ValueError, the schema
    being checked before the tools and the first unregistered tool being the
    one reported, and nothing has been created or printed. *)
Theorem create_agent_checks_before_creating :
  forall (self : AgentFactory Schema Tool) project_client agent_name instructions
         output_schema_name tools structured_inputs created w,
    let run :=
      create_agent model_json_schema self project_client agent_name instructions
        output_schema_name tools structured_inputs created w in
    let registered t := is_Some (tools_registry self !! t) in
    match fst (fst run) with
    | inr agent =>
        exists schema_name schema_model definition,
          output_schema_name = Some schema_name
          /\ schemas_registry self !! schema_name = Some schema_model
          /\ Forall registered (default [] tools)
          /\ snd (fst run) = created ++ [(agent_name, PromptAgent definition)]
          /\ agent = project_client (snd (fst run))
          /\ PromptAgentDefinition.text_format_name definition = schema_name
          /\ PromptAgentDefinition.tools definition
             = nonempty_or_none
                 (omap (fun t => tools_registry self !! t) (default [] tools))
          /\ only_printed w (snd run)
    | inl e =>
        snd (fst run) = created /\ snd run = w
        /\ match output_schema_name ≫= (fun n => schemas_registry self !! n) with
           | None =>
               e = ValueError ("Schema '" +:+ default "None" output_schema_name
                               +:+ "' not found in schemas registry")
           | Some _ =>
               exists before missing after,
                 default [] tools = before ++ missing :: after
                 /\ Forall registered before
                 /\ ~ registered missing
                 /\ e = ValueError ("Tool '" +:+ missing
                                    +:+ "' not found in tools registry")
           end
    end.
Proof.
  intros self project_client agent_name instructions output_schema_name tools
    structured_inputs created w. cbv zeta.
  unfold create_agent.
  destruct output_schema_name as [n|]; cbn [mbind option_bind]; [|cbn; auto].
  destruct (schemas_registry self !! n) as [schema_model|] eqn:Hs; cbn;
    [|auto].
  pose proof (collect_tools_spec self (default [] tools) []) as Htools.
  destruct (collect_tools self (default [] tools) []) as [e|agent_tools]; cbn.
  - destruct Htools as (before & missing & after & Ht & Hb & Hm & ->).
    split; [reflexivity|]. split; [reflexivity|].
    exists before, missing, after. repeat split; auto.
    intros [x Hx]. congruence.
  - destruct Htools as [Hall ->].
    eexists n, schema_model, _. repeat split; eauto.
Qed.

Lemma dict_lookup_dict_set {V} (n k : string) (v : V) d :
  is_Some (dict_lookup n (dict_set k v d)) <-> n = k \/ is_Some (dict_lookup n d).
Proof.
  induction d as [|[k' v'] d IH]; cbn.
  - destruct (String.eqb_spec n k) as [->|Hn].
    + split; eauto.
    + split; [intros [x Hx]; discriminate | intros [?|[x Hx]]; [tauto|discriminate]].
  - destruct (String.eqb_spec k k') as [->|Hk]; cbn.
    + destruct (String.eqb_spec n k') as [->|Hn]; [split; eauto|].
      split; [auto | intros [?|?]; [tauto|assumption]].
    + destruct (String.eqb_spec n k') as [->|Hn]; [split; eauto|].
      exact IH.
Qed.

Lemma create_agent_effect (self : AgentFactory Schema Tool) project_client agent_name
  instructions output_schema_name tools structured_inputs created w :
  let run :=
    create_agent model_json_schema self project_client agent_name instructions
      output_schema_name tools structured_inputs created w in
  match fst (fst run) with
  | inr agent =>
      (exists definition,
         snd (fst run) = created ++ [(agent_name, PromptAgent definition)])
      /\ only_printed w (snd run)
  | inl e => snd (fst run) = created /\ snd run = w
  end.
Proof.
  cbv zeta. unfold create_agent.
  destruct (output_schema_name ≫= _) as [[n m]|]; cbn; [|auto].
  destruct (collect_tools self (default [] tools) []) as [e|agent_tools]; cbn; [auto|].
  split; [eauto|]. printed.
Qed.

Lemma create_agent_from_config_spec (self : AgentFactory Schema Tool) project_client
  agent_name config_file created w :
  let run :=
    create_agent_from_config model_json_schema yaml_files self project_client
      agent_name config_file created w in
  match fst (fst run) with
  | inr agent =>
      (exists definition,
         snd (fst run) = created ++ [(agent_name, PromptAgent definition)])
      /\ only_printed w (snd run)
      /\ exists config,
           load_agent_configs yaml_files config_file = inr config
           /\ is_Some (dict_lookup agent_name (default [] (agents config)))
  | inl e => snd (fst run) = created /\ snd run = w
  end.
Proof.
  cbv zeta. unfold create_agent_from_config.
  destruct (load_agent_configs yaml_files config_file) as [e|config]; cbn; [auto|].
  destruct (dict_lookup agent_name (default [] (agents config))) as [agent_config|] eqn:Hl;
    cbn; [|auto].
  pose proof (create_agent_effect self project_client agent_name
    (default "" (AgentConfig.instructions agent_config))
    (AgentConfig.output_schema agent_config)
    (Some (default [] (AgentConfig.tools agent_config)))
    (Some (default [] (AgentConfig.structured_inputs agent_config)))
    created w) as H.
  cbv zeta in H.
  destruct (create_agent _ _ _ _ _ _ _ _ _ _) as [[[e|agent] created'] w']; cbn in *.
  - tauto.
  - destruct H as [[definition Hc] Hw].
    split; [eauto|]. split; [exact Hw|]. exists config. split; [reflexivity|eauto].
Qed.

Lemma create_agents_spec (self : AgentFactory Schema Tool) project_client config_file
  agent_names created_agents created w :
  let run :=
    create_agents model_json_schema yaml_files self project_client config_file
      agent_names created_agents created w in
  exists new,
    snd (fst run) = created ++ new
    /\ only_printed w (snd run)
    /\ match fst (fst run) with
       | inr result =>
           map fst new = agent_names
           /\ (forall n, is_Some (dict_lookup n result)
                         <-> n ∈ agent_names \/ is_Some (dict_lookup n created_agents))
           /\ (agent_names <> [] ->
               exists config,
                 load_agent_configs yaml_files config_file = inr config
                 /\ Forall (fun n => is_Some (dict_lookup n (default [] (agents config))))
                      agent_names)
       | inl e =>
           exists failed after,
             agent_names = map fst new ++ failed :: after
             /\ fst (fst (create_agent_from_config model_json_schema yaml_files self
                            project_client failed config_file (snd (fst run)) (snd run)))
                = inl e
       end.
Proof.
  cbv zeta. revert created_agents created w.
  induction agent_names as [|agent_name rest IH]; intros created_agents created w; cbn.
  - exists []. rewrite app_nil_r. split; [reflexivity|]. split; [apply only_printed_refl|].
    split; [reflexivity|]. split; [|congruence].
    intros n. rewrite elem_of_nil. tauto.
  - pose proof (create_agent_from_config_spec self project_client agent_name config_file
      created w) as Hone.
    cbv zeta in Hone.
    destruct (create_agent_from_config _ _ _ _ agent_name _ created w)
      as [[[e|agent] created1] w1] eqn:Hrun; cbn in Hone.
    + destruct Hone as [-> ->]. cbn. exists []. rewrite app_nil_r.
      split; [reflexivity|]. split; [apply only_printed_refl|].
      exists agent_name, rest. split; [reflexivity|]. rewrite Hrun. reflexivity.
    + destruct Hone as ((definition & ->) & Hw & config & Hload & Hin).
      specialize (IH (dict_set agent_name agent created_agents)
                     (created ++ [(agent_name, PromptAgent definition)]) w1).
      destruct IH as (new & Hc & Hw' & Hres).
      exists ((agent_name, PromptAgent definition) :: new).
      split; [rewrite Hc, <- app_assoc; reflexivity|].
      split; [eapply only_printed_trans; eassumption|].
      destruct (fst (fst (create_agents _ _ _ _ _ rest _ _ _))) as [e|result].
      * destruct Hres as (failed & after & -> & Hfail).
        exists failed, after. split; [reflexivity|exact Hfail].
      * destruct Hres as (Hnames & Hkeys & Hconf). cbn. split; [congruence|].
        split.
        -- intros n. rewrite Hkeys, dict_lookup_dict_set, elem_of_cons. tauto.
        -- intros _. exists config. split; [exact Hload|]. constructor; [exact Hin|].
           destruct rest as [|r rest']; [constructor|].
           destruct Hconf as (config' & Hload' & Hall); [congruence|].
           rewrite Hload in Hload'. injection Hload' as <-. exact Hall.
Qed.

(** X21: [create_all_agents_from_config] creates the agents one after the
    other, in the order of the names asked for (the configuration's own
    order when none is given), and is not transactional: when one of them
    fails, those before it have been created and stay so, and the error is
    the failing agent's own. When it returns, one creation was made for each
    name asked for, every such name is configured, and the dictionary
    returned has exactly those names as keys. The payment plugin, the clock
    and the identifier source are never touched. *)
Theorem create_all_agents_in_order :
  forall (self : AgentFactory Schema Tool) project_client config_file agent_names
         created w,
    let run :=
      create_all_agents_from_config model_json_schema yaml_files self project_client
        config_file agent_names created w in
    exists new,
      snd (fst run) = created ++ new
      /\ only_printed w (snd run)
      /\ match load_agent_configs yaml_files config_file with
         | inl e => fst (fst run) = inl e /\ new = []
         | inr config =>
             let configured := default [] (agents config) in
             let requested := default (map fst configured) agent_names in
             match fst (fst run) with
             | inr created_agents =>
                 map fst new = requested
                 /\ Forall (fun n => is_Some (dict_lookup n configured)) requested
                 /\ forall n, is_Some (dict_lookup n created_agents) <-> n ∈ requested
             | inl e =>
                 exists failed after,
                   requested = map fst new ++ failed :: after
                   /\ fst (fst (create_agent_from_config model_json_schema yaml_files
                                  self project_client failed config_file
                                  (snd (fst run)) (snd run)))
                      = inl e
             end
         end.
Proof.
  intros self project_client config_file agent_names created w. cbv zeta.
  unfold create_all_agents_from_config.
  destruct (load_agent_configs yaml_files config_file) as [e|config] eqn:Hload; cbn.
  - exists []. rewrite app_nil_r. repeat split. apply only_printed_refl.
  - pose proof (create_agents_spec self project_client config_file
      (default (map fst (default [] (agents config))) agent_names) [] created w) as H.
    cbv zeta in H. destruct H as (new & Hc & Hw & Hres).
    exists new. split; [exact Hc|]. split; [exact Hw|].
    destruct (fst (fst (create_agents _ _ _ _ _ _ _ _ _))) as [e|created_agents].
    + exact Hres.
    + destruct Hres as (Hnames & Hkeys & Hconf). split; [exact Hnames|]. split.
      * destruct (default (map fst (default [] (agents config))) agent_names)
          as [|r rest] eqn:Hreq; [constructor|].
        destruct Hconf as (config' & Hload' & Hall); [congruence|].
        rewrite Hload in Hload'. injection Hload' as <-. exact Hall.
      * intros n. rewrite Hkeys. cbn. split; [intros [?|[x Hx]]; [assumption|discriminate]|auto].
Qed.

End FactoryProperties.

(** ** The tool declarations and the function map *)

Section Declarations.
Context `{PyRuntime}.








End Declarations.

